(** * aws_db_utils: credential resolution, scoped sessions and the
      Redshift Data API submit/poll/fetch protocol.

    A shallow embedding of [aws_db_utils.py].  Python values that cross
    the module untyped (parsed secrets, Data API result cells) are
    [PyVal]; the AWS clients and the database drivers are a record of
    functions of the call history, so that a mock can answer differently
    at each call; calls, sleeps and log records are appended to a trace. *)

From Stdlib Require Import ZArith List String Ascii Bool Lia Floats.
Import ListNotations.

Set Warnings "-inexact-float,-register-all".
Local Open Scope string_scope.

(** ** Python values *)

(** A [dict] keeps insertion order ([list(item.keys())[0]] is the first
    inserted key), so it is an association list.  A [PStr] holds the code
    points of a [str] whose characters are below 256, a [PBytes] the bytes
    of a [bytes]. *)
Inductive PyVal : Type :=
| PNone
| PBool (b : bool)
| PInt (z : Z)
| PFloat (f : float)
| PStr (s : string)
| PBytes (s : string)
| PList (l : list PyVal)
| PDict (d : list (string * PyVal)).

Definition Dict : Type := list (string * PyVal).

(** [bool(v)]: the test behind [if v], [not v] and [a or b]. *)
Definition truthy (v : PyVal) : bool :=
  match v with
  | PNone => false
  | PBool b => b
  | PInt z => negb (Z.eqb z 0)
  | PFloat f => negb (PrimFloat.eqb f 0%float)
  | PStr s => negb (String.eqb s "")
  | PBytes s => negb (String.eqb s "")
  | PList l => match l with [] => false | _ :: _ => true end
  | PDict d => match d with [] => false | _ :: _ => true end
  end.

(** [a or b] *)
Definition py_or (a b : PyVal) : PyVal := if truthy a then a else b.

(** [k in d] *)
Fixpoint dict_in (k : string) (d : Dict) : bool :=
  match d with
  | [] => false
  | (k', _) :: d' => if String.eqb k k' then true else dict_in k d'
  end.

Fixpoint dict_lookup (k : string) (d : Dict) : option PyVal :=
  match d with
  | [] => None
  | (k', v) :: d' => if String.eqb k k' then Some v else dict_lookup k d'
  end.

(** [d.get(k)] and [d.get(k, default)] *)
Definition dict_get_default (k : string) (default : PyVal) (d : Dict) : PyVal :=
  match dict_lookup k d with Some v => v | None => default end.

Definition dict_get (k : string) (d : Dict) : PyVal :=
  dict_get_default k PNone d.

(** [d[k] = v]: an existing key keeps its position. *)
Fixpoint dict_set (k : string) (v : PyVal) (d : Dict) : Dict :=
  match d with
  | [] => [(k, v)]
  | (k', v') :: d' =>
      if String.eqb k k' then (k', v) :: d' else (k', v') :: dict_set k v d'
  end.

(** [str(x)] for an [Optional[str]] inside a format string. *)
Definition str_of_opt (o : option string) : string :=
  match o with Some s => s | None => "None" end.

Definition opt_str (o : option string) : PyVal :=
  match o with Some s => PStr s | None => PNone end.

(** ** Exceptions and results *)

Inductive exn : Type :=
| ValueError (msg : string)
| RuntimeError (msg : string)
| TypeError (msg : string)
| AttributeError (msg : string)
| OverflowError (msg : string)
| KeyError (key : string)
| IndexError (msg : string)
| ClientError (msg : string)        (* botocore.exceptions.ClientError *)
| DriverError (msg : string)        (* pymysql.Error, psycopg2.Error *)
| KeyboardInterrupt
| SystemExit.

(** [isinstance(e, Exception)]: what [except Exception] catches. *)
Definition is_Exception (e : exn) : bool :=
  match e with
  | KeyboardInterrupt | SystemExit => false
  | _ => true
  end.

Definition is_ClientError (e : exn) : bool :=
  match e with ClientError _ => true | _ => false end.

(** [OutOfFuel] stands for a polling loop that has not stopped yet. *)
Inductive Res (A : Type) : Type :=
| Ok (a : A)
| Raise (e : exn)
| OutOfFuel.
Arguments Ok {A} a.
Arguments Raise {A} e.
Arguments OutOfFuel {A}.

(** ** [int(x)] *)

(** Whitespace that [int()] strips from a [str]: the blanks of C
    [isspace], and the two blanks above 127 (NEL, no-break space) that it
    first turns into a space; from a [bytes] only the former. *)
Definition is_space_bytes (c : ascii) : bool :=
  let n := nat_of_ascii c in
  (Nat.eqb n 32 || (Nat.leb 9 n && Nat.leb n 13))%bool.

Definition is_space (c : ascii) : bool :=
  let n := nat_of_ascii c in
  (is_space_bytes c || Nat.eqb n 133 || Nat.eqb n 160)%bool.

Definition digit_of (c : ascii) : option Z :=
  let n := nat_of_ascii c in
  if (Nat.leb 48 n && Nat.leb n 57)%bool then Some (Z.of_nat (n - 48)) else None.

Fixpoint lstrip (space : ascii -> bool) (s : list ascii) : list ascii :=
  match s with
  | c :: s' => if space c then lstrip space s' else s
  | [] => []
  end.

Definition strip (space : ascii -> bool) (s : list ascii) : list ascii :=
  rev (lstrip space (rev (lstrip space s))).

(** Decimal digits, a single underscore allowed between two digits.
    [after_digit] tells whether the previous character was a digit. *)
Fixpoint parse_digits (after_digit : bool) (acc : Z) (s : list ascii) : option Z :=
  match s with
  | [] => if after_digit then Some acc else None
  | c :: s' =>
      match digit_of c with
      | Some d => parse_digits true (acc * 10 + d) s'
      | None =>
          if (Ascii.eqb c "_" && after_digit)%bool
          then match s' with
               | c' :: _ => match digit_of c' with
                            | Some _ => parse_digits false acc s'
                            | None => None
                            end
               | [] => None
               end
          else None
      end
  end.

(** [sys.get_int_max_str_digits()], as the interpreter starts. *)
Definition max_str_digits : nat := 4300.

Definition count_digits (s : list ascii) : nat :=
  List.length (filter (fun c => match digit_of c with Some _ => true | None => false end) s).

Definition int_of_str (space : ascii -> bool) (s : string) : option Z :=
  let body := match strip space (list_ascii_of_string s) with
              | "-"%char :: ds => (true, ds)
              | "+"%char :: ds => (false, ds)
              | ds => (false, ds)
              end in
  if Nat.ltb max_str_digits (count_digits (snd body)) then None
  else if fst body then option_map Z.opp (parse_digits false 0 (snd body))
       else parse_digits false 0 (snd body).

(** Truncation toward zero of a finite binary64 value. *)
Definition trunc_float (f : float) : Res Z :=
  match Prim2SF f with
  | S754_zero _ => Ok 0%Z
  | S754_infinity _ => Raise (OverflowError "cannot convert float infinity to integer")
  | S754_nan => Raise (ValueError "cannot convert float NaN to integer")
  | S754_finite s m e =>
      let mag := if (0 <=? e)%Z then (Z.pos m * 2 ^ e)%Z
                 else (Z.pos m / 2 ^ (- e))%Z in
      Ok (if s then (- mag)%Z else mag)
  end.

Definition py_int (v : PyVal) : Res Z :=
  match v with
  | PInt z => Ok z
  | PBool b => Ok (if b then 1%Z else 0%Z)
  | PFloat f => trunc_float f
  | PStr s =>
      match int_of_str is_space s with
      | Some z => Ok z
      | None => Raise (ValueError "invalid literal for int() with base 10")
      end
  | PBytes s =>
      match int_of_str is_space_bytes s with
      | Some z => Ok z
      | None => Raise (ValueError "invalid literal for int() with base 10")
      end
  | PNone | PList _ | PDict _ =>
      Raise (TypeError "int() argument must be a string, a bytes-like object or a real number")
  end.

(** ** The outside world: trace, clients and drivers *)

Definition Conn : Type := nat.

Inductive LogLevel : Type := DEBUG | ERROR.

(** Keyword arguments of [pymysql.connect] as [connect] passes them
    ([cursorclass] is the constant [DictCursor]). *)
Record MySQLConnectArgs : Type := {
  my_host : PyVal;
  my_port : Z;
  my_user : PyVal;
  my_password : PyVal;
  my_db : PyVal;
  my_connect_timeout : Z;
  my_ssl : PyVal
}.

(** Keyword arguments of [psycopg2.connect]. *)
Record PgConnectArgs : Type := {
  pg_host : PyVal;
  pg_port : Z;
  pg_dbname : PyVal;
  pg_user : PyVal;
  pg_password : PyVal
}.

Inductive Event : Type :=
| EvLog (level : LogLevel) (msg : string)
| EvGetSecretValue (SecretId : string)
| EvMySQLConnect (args : MySQLConnectArgs)
| EvPgConnect (args : PgConnectArgs)
| EvClose (c : Conn)
| EvExecuteStatement (kwargs : Dict)
| EvDescribeStatement (Id : string)
| EvSleep (secs : float)
| EvGetStatementResult (Id : string).

Definition Trace : Type := list Event.

(** Responses of the AWS clients, with the members the module reads. *)
Record SecretResponse : Type := {
  SecretString : option string;
  SecretBinary : option string
}.

Record ExecuteResponse : Type := { Id : option string }.

Record DescribeResponse : Type := {
  Status : option string;
  Error : option string
}.

Record ColumnMeta : Type := { name : option string }.

Record StatementResult : Type := {
  ColumnMetadata : option (list ColumnMeta);
  Records : option (list (list PyVal))
}.

(** What a service object holds and calls: [self.region_name], the boto3
    clients, the two drivers, [json.loads] and [time.sleep].  Each call sees the trace
    so far, so that a mock may count its calls. *)
Record World : Type := {
  region_name : option string;
  json_loads : string -> option PyVal;   (* [None]: json.JSONDecodeError *)
  get_secret_value : Trace -> string -> Res SecretResponse;
  pymysql_connect : Trace -> MySQLConnectArgs -> Res Conn;
  psycopg2_connect : Trace -> PgConnectArgs -> Res Conn;
  conn_close : Trace -> Conn -> Res unit;
  execute_statement : Trace -> Dict -> Res ExecuteResponse;
  describe_statement : Trace -> string -> Res DescribeResponse;
  get_statement_result : Trace -> string -> Res StatementResult;
  time_sleep : Trace -> float -> Res unit
}.

(** ** A state and exception monad over the trace *)

Definition M (A : Type) : Type := Trace -> Res A * Trace.

Definition ret {A} (a : A) : M A := fun t => (Ok a, t).

Definition raise {A} (e : exn) : M A := fun t => (Raise e, t).

Definition bind {A B} (m : M A) (k : A -> M B) : M B :=
  fun t =>
    match m t with
    | (Ok a, t') => k a t'
    | (Raise e, t') => (Raise e, t')
    | (OutOfFuel, t') => (OutOfFuel, t')
    end.

Declare Scope py_scope.
Delimit Scope py_scope with py.
Notation "x <- m ;; k" := (bind m (fun x => k))
  (at level 61, m at next level, right associativity) : py_scope.
Notation "m ;; k" := (bind m (fun _ => k))
  (at level 61, right associativity) : py_scope.
Local Open Scope py_scope.

Definition lift {A} (r : Res A) : M A := fun t => (r, t).

(** Record the call, then let the world answer from the history before it. *)
Definition call {A} (ev : Event) (answer : Trace -> Res A) : M A :=
  fun t => (answer t, (t ++ [ev])%list).

Definition emit (ev : Event) : M unit := fun t => (Ok tt, (t ++ [ev])%list).

Definition log (level : LogLevel) (msg : string) : M unit := emit (EvLog level msg).

(** [try: m  except <catches>: handler(e)] *)
Definition try_except {A} (m : M A) (catches : exn -> bool) (handler : exn -> M A) : M A :=
  fun t =>
    match m t with
    | (Raise e, t') => if catches e then handler e t' else (Raise e, t')
    | r => r
    end.

(** [try: m  finally: cleanup]: the cleanup runs on both exits, and an
    exception leaving the cleanup replaces the pending outcome. *)
Definition try_finally {A} (m : M A) (cleanup : M unit) : M A :=
  fun t =>
    match m t with
    | (OutOfFuel, t') => (OutOfFuel, t')
    | (r, t') =>
        match cleanup t' with
        | (Ok _, t'') => (r, t'')
        | (Raise e, t'') => (Raise e, t'')
        | (OutOfFuel, t'') => (OutOfFuel, t'')
        end
    end.

(** [time.sleep(secs)]: a call of the world like the others; what
    lengths it accepts, and whether it is interrupted, is the world's. *)
Definition sleep (self : World) (secs : float) : M unit :=
  call (EvSleep secs) (fun t => time_sleep self t secs).

(** ** SecretsManagerService *)

Module SecretsManagerService.

Definition fetching_message (self : World) (secret_name : string) : string :=
  "Fetching secret " ++ secret_name ++ " from region " ++ str_of_opt (region_name self).

Definition get_secret (self : World) (secret_name : string) : M PyVal :=
  log DEBUG (fetching_message self secret_name) ;;
  response <-
    try_except
      (call (EvGetSecretValue secret_name)
            (fun t => get_secret_value self t secret_name))
      is_ClientError
      (fun e => log ERROR ("Failed to fetch secret " ++ secret_name) ;; raise e) ;;
  let no_string : M PyVal :=
    match SecretBinary response with
    | Some binary_secret =>
        if truthy (PBytes binary_secret)
        then ret (PDict [("secret_binary", PBytes binary_secret)])
        else raise (ValueError "Secret did not contain SecretString or SecretBinary")
    | None => raise (ValueError "Secret did not contain SecretString or SecretBinary")
    end in
  match SecretString response with
  | Some secret_string =>
      if truthy (PStr secret_string) then
        match json_loads self secret_string with
        | Some v => ret v
        | None => ret (PDict [("secret", PStr secret_string)])
        end
      else no_string
  | None => no_string
  end.

End SecretsManagerService.

(** [secret.get(k)]: only a mapping has [get]. *)
Definition as_mapping (secret : PyVal) : Res Dict :=
  match secret with
  | PDict d => Ok d
  | _ => Raise (AttributeError "object has no attribute 'get'")
  end.

(** The exit of a scoped connection: [conn.close()], a failure of it
    being logged and dropped when it is an [Exception]. *)
Definition close_quietly (self : World) (conn : Conn) (what : string) : M unit :=
  try_except (call (EvClose conn) (fun t => conn_close self t conn))
             is_Exception
             (fun _ => log ERROR what).

(** ** RdsMySQLService *)

Module MySQLConnectionParams.
Record t : Type := {
  host : PyVal;
  port : Z;
  database : PyVal;
  user : PyVal;
  password : PyVal;
  connect_timeout : Z;
  ssl : PyVal
}.
End MySQLConnectionParams.

Module RdsMySQLService.
Import MySQLConnectionParams.

Definition default_port : Z := 3306.
Definition default_connect_timeout : Z := 10.

Definition _params_from_secret (self : World) (secret_name : string)
  : M MySQLConnectionParams.t :=
  secret_v <- SecretsManagerService.get_secret self secret_name ;;
  secret <- lift (as_mapping secret_v) ;;
  let host := py_or (py_or (dict_get "host" secret) (dict_get "hostname" secret))
                    (dict_get "url" secret) in
  port <- lift (py_int (dict_get_default "port" (PInt default_port) secret)) ;;
  let user := py_or (dict_get "username" secret) (dict_get "user" secret) in
  let password := dict_get "password" secret in
  let database := py_or (py_or (dict_get "dbname" secret) (dict_get "database" secret))
                        (dict_get "db" secret) in
  let ssl :=
    if dict_in "ssl" secret
    then match dict_get "ssl" secret with PDict d => PDict d | _ => PNone end
    else PNone in
  ret {| host := host; port := port; database := database; user := user;
         password := password; connect_timeout := default_connect_timeout;
         ssl := ssl |}.

Definition connect_args (params : MySQLConnectionParams.t) : MySQLConnectArgs :=
  {| my_host := host params; my_port := port params; my_user := user params;
     my_password := password params; my_db := database params;
     my_connect_timeout := connect_timeout params; my_ssl := ssl params |}.

(** [connect] is a generator under [@contextmanager]: entering the
    [with] block runs it up to [yield conn], leaving the block resumes it
    in the [finally].  An omitted [port] is [None] here and takes the
    default of the signature. *)
Definition connect_enter (self : World)
    (secret_name host : option string) (port : option Z)
    (database user password : option string) (ssl : option Dict) : M Conn :=
  let port := match port with Some p => p | None => default_port end in
  let explicit : M MySQLConnectionParams.t :=
    if (negb (truthy (opt_str host)) || negb (truthy (opt_str user)))%bool
    then raise (ValueError "host and user must be provided if secret_name is not used")
    else ret {| MySQLConnectionParams.host := opt_str host;
                MySQLConnectionParams.port := port;
                MySQLConnectionParams.database := opt_str database;
                MySQLConnectionParams.user := opt_str user;
                MySQLConnectionParams.password := opt_str password;
                connect_timeout := default_connect_timeout;
                MySQLConnectionParams.ssl :=
                  match ssl with Some d => PDict d | None => PNone end |} in
  params <- match secret_name with
            | Some name =>
                if truthy (PStr name) then _params_from_secret self name else explicit
            | None => explicit
            end ;;
  call (EvMySQLConnect (connect_args params))
       (fun t => pymysql_connect self t (connect_args params)).

Definition connect_exit (self : World) (conn : Conn) : M unit :=
  close_quietly self conn "Error closing MySQL connection".

(** [with self.connect(...) as conn: body(conn)] *)
Definition connect {A} (self : World)
    (secret_name host : option string) (port : option Z)
    (database user password : option string) (ssl : option Dict)
    (body : Conn -> M A) : M A :=
  conn <- connect_enter self secret_name host port database user password ssl ;;
  try_finally (body conn) (connect_exit self conn).

End RdsMySQLService.

(** ** RedshiftService: direct sessions *)

Module RedshiftConnectionParams.
Record t : Type := {
  host : PyVal;
  port : Z;
  database : PyVal;
  user : PyVal;
  password : PyVal
}.
End RedshiftConnectionParams.

Module RedshiftService.
Import RedshiftConnectionParams.

Definition default_port : Z := 5439.

Definition params_from_secret (self : World) (secret_name : string)
  : M RedshiftConnectionParams.t :=
  secret_v <- SecretsManagerService.get_secret self secret_name ;;
  secret <- lift (as_mapping secret_v) ;;
  let host := py_or (py_or (dict_get "host" secret) (dict_get "endpoint" secret))
                    (dict_get "hostname" secret) in
  port <- lift (py_int (dict_get_default "port" (PInt default_port) secret)) ;;
  let database := py_or (dict_get "dbname" secret) (dict_get "database" secret) in
  let user := py_or (dict_get "username" secret) (dict_get "user" secret) in
  let password := dict_get "password" secret in
  ret {| host := host; port := port; database := database; user := user;
         password := password |}.

Definition connect_args (params : RedshiftConnectionParams.t) : PgConnectArgs :=
  {| pg_host := host params; pg_port := port params; pg_dbname := database params;
     pg_user := user params; pg_password := password params |}.

Definition connect_psycopg2_enter (self : World)
    (secret_name host : option string) (port : option Z)
    (database user password : option string) : M Conn :=
  let port := match port with Some p => p | None => default_port end in
  let explicit : M RedshiftConnectionParams.t :=
    if (negb (truthy (opt_str host)) || negb (truthy (opt_str user)))%bool
    then raise (ValueError "host and user must be provided if secret_name is not used")
    else ret {| RedshiftConnectionParams.host := opt_str host;
                RedshiftConnectionParams.port := port;
                RedshiftConnectionParams.database := opt_str database;
                RedshiftConnectionParams.user := opt_str user;
                RedshiftConnectionParams.password := opt_str password |} in
  params <- match secret_name with
            | Some name =>
                if truthy (PStr name) then params_from_secret self name else explicit
            | None => explicit
            end ;;
  call (EvPgConnect (connect_args params))
       (fun t => psycopg2_connect self t (connect_args params)).

Definition connect_psycopg2_exit (self : World) (conn : Conn) : M unit :=
  close_quietly self conn "Error closing Redshift psycopg2 connection".

(** [with self.connect_psycopg2(...) as conn: body(conn)] *)
Definition connect_psycopg2 {A} (self : World)
    (secret_name host : option string) (port : option Z)
    (database user password : option string)
    (body : Conn -> M A) : M A :=
  conn <- connect_psycopg2_enter self secret_name host port database user password ;;
  try_finally (body conn) (connect_psycopg2_exit self conn).

(** ** RedshiftService: the Data API *)

Definition default_poll_interval : float := 0.5%float.
Definition default_timeout : float := 30%float.

Definition opt_eqb (o : option string) (s : string) : bool :=
  match o with Some s' => String.eqb s' s | None => false end.

(** [kwargs[k] = v] under [if v:] *)
Definition set_if_truthy (k : string) (v : option string) (kwargs : Dict) : Dict :=
  if truthy (opt_str v) then dict_set k (opt_str v) kwargs else kwargs.

Definition statement_kwargs (sql database : string)
    (cluster_identifier workgroup_name db_user secret_arn : option string) : Dict :=
  set_if_truthy "SecretArn" secret_arn
    (set_if_truthy "DbUser" db_user
      (set_if_truthy "WorkgroupName" workgroup_name
        (set_if_truthy "ClusterIdentifier" cluster_identifier
          [("Sql", PStr sql); ("Database", PStr database)]))).

(** The [while waited < timeout] loop.  One unit of fuel is one
    [describe_statement] call. *)
Fixpoint wait_loop (fuel : nat) (self : World) (statement_id : string)
    (poll_interval timeout waited : float) : M unit :=
  if PrimFloat.ltb waited timeout then
    match fuel with
    | O => lift OutOfFuel
    | S fuel' =>
        describe <- call (EvDescribeStatement statement_id)
                         (fun t => describe_statement self t statement_id) ;;
        let status := Status describe in
        if opt_eqb status "FINISHED" then ret tt
        else if (opt_eqb status "ABORTED" || opt_eqb status "FAILED"
                 || opt_eqb status "TIMED_OUT")%bool then
          let message := Error describe in
          raise (RuntimeError ("Redshift Data API statement " ++ statement_id
                               ++ " failed with status " ++ str_of_opt status
                               ++ ": " ++ str_of_opt message))
        else
          sleep self poll_interval ;;
          wait_loop fuel' self statement_id poll_interval timeout
                    (waited + poll_interval)%float
    end
  else ret tt.

(** The typed tags that carry a value, in the order of the [if]/[elif] chain. *)
Definition value_tags : list string :=
  ["stringValue"; "longValue"; "doubleValue"; "booleanValue"].

(** The body of the inner [for col, item in zip(columns, r)] loop. *)
Definition decode_cell (item : PyVal) : Res PyVal :=
  if negb (truthy item) then Ok PNone
  else
    match item with
    | PDict d =>
        let inner_keys := map fst d in
        if dict_in "stringValue" d then Ok (dict_get "stringValue" d)
        else if dict_in "longValue" d then Ok (dict_get "longValue" d)
        else if dict_in "doubleValue" d then Ok (dict_get "doubleValue" d)
        else if dict_in "booleanValue" d then Ok (dict_get "booleanValue" d)
        else if (dict_in "isNull" d && truthy (dict_get "isNull" d))%bool then Ok PNone
        else
          match inner_keys with
          | k :: _ => Ok (dict_get k d)
          | [] => Raise (IndexError "list index out of range")
          end
    | _ => Raise (AttributeError "object has no attribute 'keys'")
    end.

Fixpoint decode_record (cells : list (string * PyVal)) (record : Dict) : Res Dict :=
  match cells with
  | [] => Ok record
  | (col, item) :: cells' =>
      match decode_cell item with
      | Ok value => decode_record cells' (dict_set col value record)
      | Raise e => Raise e
      | OutOfFuel => OutOfFuel
      end
  end.

Fixpoint decode_records (columns : list string) (records : list (list PyVal))
    (rows : list Dict) : Res (list Dict) :=
  match records with
  | [] => Ok rows
  | r :: records' =>
      match decode_record (combine columns r) [] with
      | Ok record => decode_records columns records' (rows ++ [record])%list
      | Raise e => Raise e
      | OutOfFuel => OutOfFuel
      end
  end.

(** [[col["name"] for col in ...]] *)
Fixpoint column_names (metadata : list ColumnMeta) : Res (list string) :=
  match metadata with
  | [] => Ok []
  | col :: metadata' =>
      match name col with
      | Some n =>
          match column_names metadata' with
          | Ok ns => Ok (n :: ns)
          | Raise e => Raise e
          | OutOfFuel => OutOfFuel
          end
      | None => Raise (KeyError "name")
      end
  end.

Definition decode_result (result : StatementResult) : Res (list Dict) :=
  match column_names (match ColumnMetadata result with Some m => m | None => [] end) with
  | Ok columns =>
      decode_records columns
        (match Records result with Some rs => rs | None => [] end) []
  | Raise e => Raise e
  | OutOfFuel => OutOfFuel
  end.

Definition execute_query_data_api (fuel : nat) (self : World)
    (sql database : string)
    (cluster_identifier workgroup_name db_user secret_arn : option string)
    (wait : bool) (poll_interval timeout : float) : M (list Dict) :=
  if negb (truthy (py_or (opt_str cluster_identifier) (opt_str workgroup_name)))
  then raise (ValueError "Either cluster_identifier or workgroup_name must be provided")
  else
    let kwargs := statement_kwargs sql database cluster_identifier workgroup_name
                                   db_user secret_arn in
    statement_id <-
      try_except
        (resp <- call (EvExecuteStatement kwargs)
                      (fun t => execute_statement self t kwargs) ;;
         match Id resp with
         | Some i => ret i
         | None => raise (KeyError "Id")
         end)
        is_ClientError
        (fun e => log ERROR "Failed to execute statement via Redshift Data API" ;;
                  raise e) ;;
    if negb wait then ret []
    else
      wait_loop fuel self statement_id poll_interval timeout 0%float ;;
      result <-
        try_except
          (call (EvGetStatementResult statement_id)
                (fun t => get_statement_result self t statement_id))
          is_ClientError
          (fun e => log ERROR "Failed to fetch statement results" ;; raise e) ;;
      lift (decode_result result).

End RedshiftService.

(** ** Observations on a run *)

(** The close-call counter of a mock session. *)
Fixpoint close_calls (conn : Conn) (t : Trace) : nat :=
  match t with
  | [] => 0
  | EvClose c :: t' => (if Nat.eqb c conn then 1 else 0) + close_calls conn t'
  | _ :: t' => close_calls conn t'
  end.

(** The same service object in front of another vault and JSON decoder. *)
Definition set_vault (self : World)
    (vault : Trace -> string -> Res SecretResponse)
    (loads : string -> option PyVal) : World :=
  {| region_name := region_name self;
     json_loads := loads;
     get_secret_value := vault;
     pymysql_connect := pymysql_connect self;
     psycopg2_connect := psycopg2_connect self;
     conn_close := conn_close self;
     execute_statement := execute_statement self;
     describe_statement := describe_statement self;
     get_statement_result := get_statement_result self;
     time_sleep := time_sleep self |}.

(** [m] only appends to the trace, and what it appends begins with [evs]. *)
Definition appends {A} (evs : list Event) (m : M A) : Prop :=
  forall t, exists r t', m t = (r, (t ++ evs ++ t')%list).

(** The statuses that end the polling. *)
Definition is_terminal (status : option string) : bool :=
  (RedshiftService.opt_eqb status "FINISHED" || RedshiftService.opt_eqb status "ABORTED"
   || RedshiftService.opt_eqb status "FAILED"
   || RedshiftService.opt_eqb status "TIMED_OUT")%bool.

(** A backend that answers every [describe_statement] on [statement_id]
    with a status that is not terminal. *)
Definition never_terminal (self : World) (statement_id : string) : Prop :=
  forall t, exists describe,
    describe_statement self t statement_id = Ok describe
    /\ is_terminal (Status describe) = false.

(** Every [time.sleep(secs)] returns normally. *)
Definition sleeps_return (self : World) (secs : float) : Prop :=
  forall t, time_sleep self t secs = Ok tt.

(** The value of [waited] after [k] rounds of [waited += poll_interval]. *)
Fixpoint waited_after (poll_interval : float) (k : nat) : float :=
  match k with
  | O => 0%float
  | S k' => (waited_after poll_interval k' + poll_interval)%float
  end.

(** [k] is the first round at which [waited < timeout] is false. *)
Definition polls_until (poll_interval timeout : float) (k : nat) : Prop :=
  (forall j, j < k -> PrimFloat.ltb (waited_after poll_interval j) timeout = true)
  /\ PrimFloat.ltb (waited_after poll_interval k) timeout = false.

(** What [k] rounds of polling leave in the trace. *)
Fixpoint poll_trace (statement_id : string) (poll_interval : float) (k : nat) : Trace :=
  match k with
  | O => []
  | S k' => EvDescribeStatement statement_id :: EvSleep poll_interval
            :: poll_trace statement_id poll_interval k'
  end.

(** ** Test doubles *)

Module Mock.

Definition dq : string := String (ascii_of_nat 34) EmptyString.

(** [key]: [value] members of a JSON object, values given as JSON text. *)
Definition jstr (s : string) : string := dq ++ s ++ dq.

Definition jobject (members : list (string * string)) : string :=
  "{" ++ String.concat ", " (map (fun kv => jstr (fst kv) ++ ": " ++ snd kv) members) ++ "}".

Definition doc_full : string :=
  jobject [("host", jstr "db.internal"); ("port", "3307");
           ("username", jstr "admin"); ("password", jstr "pw")].

Definition doc_no_host : string :=
  jobject [("username", jstr "admin"); ("password", jstr "pw")].

Definition doc_no_user : string :=
  jobject [("host", jstr "db.internal"); ("password", jstr "pw")].

Definition doc_list : string := "[1, 2]".

(** [json.loads] on the documents of this vault; any other text is
    rejected, as the plain password of [legacy/password] is. *)
Definition loads (s : string) : option PyVal :=
  if String.eqb s doc_full then
    Some (PDict [("host", PStr "db.internal"); ("port", PInt 3307);
                 ("username", PStr "admin"); ("password", PStr "pw")])
  else if String.eqb s doc_no_host then
    Some (PDict [("username", PStr "admin"); ("password", PStr "pw")])
  else if String.eqb s doc_no_user then
    Some (PDict [("host", PStr "db.internal"); ("password", PStr "pw")])
  else if String.eqb s doc_list then Some (PList [PInt 1; PInt 2])
  else None.

Definition vault (t : Trace) (SecretId : string) : Res SecretResponse :=
  if String.eqb SecretId "prod/db" then
    Ok {| SecretString := Some doc_full; SecretBinary := None |}
  else if String.eqb SecretId "prod/no-host" then
    Ok {| SecretString := Some doc_no_host; SecretBinary := None |}
  else if String.eqb SecretId "prod/no-user" then
    Ok {| SecretString := Some doc_no_user; SecretBinary := None |}
  else if String.eqb SecretId "prod/list" then
    Ok {| SecretString := Some doc_list; SecretBinary := None |}
  else if String.eqb SecretId "legacy/password" then
    Ok {| SecretString := Some "hunter2"; SecretBinary := None |}
  else if String.eqb SecretId "empty" then
    Ok {| SecretString := Some ""; SecretBinary := None |}
  else Raise (ClientError "ResourceNotFoundException").

(** The page of the spec's decoding example. *)
Definition page : StatementResult :=
  {| ColumnMetadata := Some [ {| name := Some "a" |}; {| name := Some "b" |} ];
     Records := Some [ [ PDict [("stringValue", PStr "x")];
                         PDict [("isNull", PBool true)] ] ] |}.

(** A backend whose statement stays [STARTED] for ever. *)
Definition world : World :=
  {| region_name := Some "eu-west-1";
     json_loads := loads;
     get_secret_value := vault;
     pymysql_connect := fun t _ => Ok (List.length t);
     psycopg2_connect := fun t _ => Ok (List.length t);
     conn_close := fun _ _ => Ok tt;
     execute_statement := fun _ _ => Ok {| Id := Some "stmt-1" |};
     describe_statement := fun _ _ => Ok {| Status := Some "STARTED"; Error := None |};
     get_statement_result := fun _ _ => Ok page;
     time_sleep := fun _ secs =>
       if PrimFloat.leb 0 secs then Ok tt
       else Raise (ValueError "sleep length must be non-negative") |}.

(** The same, with a session whose [close] fails. *)
Definition world_close_fails : World :=
  {| region_name := region_name world;
     json_loads := json_loads world;
     get_secret_value := get_secret_value world;
     pymysql_connect := pymysql_connect world;
     psycopg2_connect := psycopg2_connect world;
     conn_close := fun _ _ => Raise (DriverError "connection already closed");
     execute_statement := execute_statement world;
     describe_statement := describe_statement world;
     get_statement_result := get_statement_result world;
     time_sleep := time_sleep world |}.

(** The same, with a statement that is [FINISHED] at the first poll. *)
Definition world_finished : World :=
  {| region_name := region_name world;
     json_loads := json_loads world;
     get_secret_value := get_secret_value world;
     pymysql_connect := pymysql_connect world;
     psycopg2_connect := psycopg2_connect world;
     conn_close := conn_close world;
     execute_statement := execute_statement world;
     describe_statement := fun _ _ => Ok {| Status := Some "FINISHED"; Error := None |};
     get_statement_result := get_statement_result world;
     time_sleep := time_sleep world |}.

Definition tenth : float := 0.1%float.
Definition half : float := 0.5%float.

End Mock.

(** ** Cursors: [run_query] and [run_query_psycopg2] *)

(** Neither function uses [self]: all they touch is the connection they
    are given.  Its cursor interface is a record of functions of the
    history, with its own events. *)
Module Cursors.

Inductive CursorEvent : Type :=
| CvCursor (cursor_factory : option string)
| CvEnter (mgr : nat)
| CvExecute (cur : nat) (query : string) (params : list PyVal)
| CvFetchall (cur : nat)
| CvExit (mgr : nat) (raised : option exn).

Definition History : Type := list CursorEvent.

Record Connection : Type := {
  cursor : History -> option string -> Res nat;          (* conn.cursor(...) *)
  cursor_enter : History -> nat -> Res nat;               (* mgr.__enter__() *)
  cursor_execute : History -> nat -> string -> list PyVal -> Res unit;
  cursor_fetchall : History -> nat -> Res (list Dict);
  cursor_exit : History -> nat -> option exn -> Res bool  (* mgr.__exit__(...) *)
}.

Definition Q (A : Type) : Type := History -> Res A * History.

Definition qcall {A} (ev : CursorEvent) (answer : History -> Res A) : Q A :=
  fun h => (answer h, (h ++ [ev])%list).

Definition qbind {A B} (m : Q A) (k : A -> Q B) : Q B :=
  fun h =>
    match m h with
    | (Ok a, h') => k a h'
    | (Raise e, h') => (Raise e, h')
    | (OutOfFuel, h') => (OutOfFuel, h')
    end.

(** [with <open> as cur: ...; return <body>] as the last statement of a
    function.  [__exit__] is told the exception of the body, if any; a
    true answer swallows it, and the function then falls off its end and
    returns [None] (here [Ok None]). *)
Definition with_return {A} (conn : Connection) (open : Q nat) (body : nat -> Q A)
  : Q (option A) :=
  qbind open (fun mgr =>
  qbind (qcall (CvEnter mgr) (fun h => cursor_enter conn h mgr)) (fun cur =>
  fun h =>
    match body cur h with
    | (Ok a, h') =>
        qbind (qcall (CvExit mgr None) (fun h => cursor_exit conn h mgr None))
              (fun _ h'' => (Ok (Some a), h'')) h'
    | (Raise e, h') =>
        qbind (qcall (CvExit mgr (Some e)) (fun h => cursor_exit conn h mgr (Some e)))
              (fun suppress h'' =>
                 if (suppress : bool) then (Ok None, h'') else (Raise e, h'')) h'
    | (OutOfFuel, h') => (OutOfFuel, h')
    end)).

(** [params or ()] *)
Definition params_or_empty (params : option (list PyVal)) : list PyVal :=
  match params with
  | Some (p :: ps) => p :: ps
  | Some [] | None => []
  end.

(** [RdsMySQLService.run_query] *)
Definition run_query (conn : Connection) (query : string)
    (params : option (list PyVal)) : Q (option (list Dict)) :=
  with_return conn
    (qcall (CvCursor None) (fun h => cursor conn h None))
    (fun cur =>
       qbind (qcall (CvExecute cur query (params_or_empty params))
                    (fun h => cursor_execute conn h cur query (params_or_empty params)))
             (fun _ => qcall (CvFetchall cur) (fun h => cursor_fetchall conn h cur))).

(** [RedshiftService.run_query_psycopg2] *)
Definition run_query_psycopg2 (conn : Connection) (query : string)
    (params : option (list PyVal)) : Q (option (list Dict)) :=
  with_return conn
    (qcall (CvCursor (Some "RealDictCursor"))
           (fun h => cursor conn h (Some "RealDictCursor")))
    (fun cur =>
       qbind (qcall (CvExecute cur query (params_or_empty params))
                    (fun h => cursor_execute conn h cur query (params_or_empty params)))
             (fun _ => qcall (CvFetchall cur) (fun h => cursor_fetchall conn h cur))).

(** The events of a cursor's life in one call. *)
Definition is_exit (ev : CursorEvent) : bool :=
  match ev with CvExit _ _ => true | _ => false end.

End Cursors.

(** ** More observations *)

(** What the fetch phase of [execute_query_data_api] gives when it starts
    at history [t_fetch]. *)
Definition fetch_outcome (self : World) (statement_id : string) (t_fetch : Trace)
  : Res (list Dict) * Trace :=
  match get_statement_result self t_fetch statement_id with
  | Ok result =>
      (RedshiftService.decode_result result,
       (t_fetch ++ [EvGetStatementResult statement_id])%list)
  | Raise e =>
      (Raise e,
       (t_fetch ++ EvGetStatementResult statement_id
                :: (if is_ClientError e
                    then [EvLog ERROR "Failed to fetch statement results"]
                    else []))%list)
  | OutOfFuel => (OutOfFuel, (t_fetch ++ [EvGetStatementResult statement_id])%list)
  end.

(** The first [k] polls of a loop that starts at history [t0] each find a
    status that is not terminal. *)
Definition pending_for (self : World) (statement_id : string) (poll_interval : float)
    (t0 : Trace) (k : nat) : Prop :=
  forall j, j < k ->
    exists describe,
      describe_statement self (t0 ++ poll_trace statement_id poll_interval j)%list
                         statement_id = Ok describe
      /\ is_terminal (Status describe) = false.

(** The poll budget is still open at rounds [0..k]. *)
Definition budget_open (poll_interval timeout : float) (k : nat) : Prop :=
  forall j, j <= k -> PrimFloat.ltb (waited_after poll_interval j) timeout = true.

Definition polls_so_far (t : Trace) : nat :=
  List.length (filter (fun ev => match ev with EvDescribeStatement _ => true | _ => false end) t).

Definition vault_calls (t : Trace) : nat :=
  List.length (filter (fun ev => match ev with EvGetSecretValue _ => true | _ => false end) t).

(** The optional entry of a request: present when the argument is truthy. *)
Definition optional_entry (k : string) (v : option string) : Dict :=
  if truthy (opt_str v) then [(k, opt_str v)] else [].




(** ** More test doubles *)

Module Scenario.

(** A statement that is [STARTED] for two polls and then has [status]. *)
Definition settles (status : string) (error : option string) : World :=
  {| region_name := None;
     json_loads := Mock.loads;
     get_secret_value := Mock.vault;
     pymysql_connect := fun _ _ => Raise (DriverError "Can't connect to MySQL server");
     psycopg2_connect := fun t _ => Ok (List.length t);
     conn_close := fun _ _ => Raise KeyboardInterrupt;
     execute_statement := fun _ _ => Ok {| Id := Some "stmt-7" |};
     describe_statement := fun t _ =>
       if Nat.leb 2 (polls_so_far t)
       then Ok {| Status := Some status; Error := error |}
       else Ok {| Status := Some "STARTED"; Error := None |};
     get_statement_result := fun _ _ => Ok Mock.page;
     time_sleep := time_sleep Mock.world |}.

(** A backend that refuses the statement. *)
Definition refuses : World :=
  {| region_name := None;
     json_loads := Mock.loads;
     get_secret_value := fun _ _ => Raise (ClientError "AccessDeniedException");
     pymysql_connect := fun t _ => Ok (List.length t);
     psycopg2_connect := fun t _ => Ok (List.length t);
     conn_close := fun _ _ => Ok tt;
     execute_statement := fun _ _ => Raise (ClientError "ValidationException");
     describe_statement := fun _ _ => Raise (ClientError "ThrottlingException");
     get_statement_result := fun _ _ => Raise (ClientError "ResourceNotFoundException");
     time_sleep := time_sleep Mock.world |}.

(** A backend that takes the statement and then throttles every poll. *)
Definition throttled : World :=
  {| region_name := None;
     json_loads := Mock.loads;
     get_secret_value := Mock.vault;
     pymysql_connect := fun t _ => Ok (List.length t);
     psycopg2_connect := fun t _ => Ok (List.length t);
     conn_close := fun _ _ => Ok tt;
     execute_statement := fun _ _ => Ok {| Id := Some "stmt-9" |};
     describe_statement := fun _ _ => Raise (ClientError "ThrottlingException");
     get_statement_result := fun _ _ => Ok Mock.page;
     time_sleep := time_sleep Mock.world |}.

(** A vault that holds a binary secret beside an empty string. *)
Definition binary_vault : World :=
  set_vault Mock.world
    (fun _ _ => Ok {| SecretString := Some ""; SecretBinary := Some "k3y" |})
    Mock.loads.




(** A connection whose cursor answers one row, and one whose [execute]
    fails. *)
Definition healthy : Cursors.Connection :=
  {| Cursors.cursor := fun h _ => Ok (List.length h);
     Cursors.cursor_enter := fun _ mgr => Ok mgr;
     Cursors.cursor_execute := fun _ _ _ _ => Ok tt;
     Cursors.cursor_fetchall := fun _ _ => Ok [[("test", PInt 1)]];
     Cursors.cursor_exit := fun _ _ _ => Ok false |}.

Definition broken : Cursors.Connection :=
  {| Cursors.cursor := fun h _ => Ok (List.length h);
     Cursors.cursor_enter := fun _ mgr => Ok mgr;
     Cursors.cursor_execute := fun _ _ _ _ => Raise (DriverError "syntax error");
     Cursors.cursor_fetchall := fun _ _ => Ok [];
     Cursors.cursor_exit := fun _ _ _ => Ok false |}.

(** A connection whose cursor cannot be released. *)
Definition stuck : Cursors.Connection :=
  {| Cursors.cursor := fun h _ => Ok (List.length h);
     Cursors.cursor_enter := fun _ mgr => Ok mgr;
     Cursors.cursor_execute := fun _ _ _ _ => Ok tt;
     Cursors.cursor_fetchall := fun _ _ => Ok [[("test", PInt 1)]];
     Cursors.cursor_exit := fun _ _ _ => Raise (DriverError "server has gone away") |}.

End Scenario.

(** * Properties *)

Local Open Scope list_scope.

(** ** Running monadic code *)

Lemma bind_Ok {A B} (m : M A) (k : A -> M B) t a t' :
  m t = (Ok a, t') -> bind m k t = k a t'.
Proof. intros H. unfold bind. now rewrite H. Qed.

Lemma app_assoc_cons {A} (t : list A) x l : ((t ++ [x]) ++ l = t ++ x :: l)%list.
Proof. now rewrite <- app_assoc. Qed.

(** ** get_secret *)

Section GetSecret.
Import SecretsManagerService.
Variable self : World.
Variable secret_name : string.
Variable t : Trace.

(** The history the vault sees when [get_secret] calls it. *)
Let t_call : Trace := (t ++ [EvLog DEBUG (fetching_message self secret_name)])%list.

Lemma get_secret_response resp :
  get_secret_value self t_call secret_name = Ok resp ->
  get_secret self secret_name t =
    (match SecretString resp with
     | Some s =>
         if String.eqb s "" then
           match SecretBinary resp with
           | Some b => if String.eqb b ""
                       then Raise (ValueError "Secret did not contain SecretString or SecretBinary")
                       else Ok (PDict [("secret_binary", PBytes b)])
           | None => Raise (ValueError "Secret did not contain SecretString or SecretBinary")
           end
         else match json_loads self s with
              | Some v => Ok v
              | None => Ok (PDict [("secret", PStr s)])
              end
     | None =>
         match SecretBinary resp with
         | Some b => if String.eqb b ""
                     then Raise (ValueError "Secret did not contain SecretString or SecretBinary")
                     else Ok (PDict [("secret_binary", PBytes b)])
         | None => Raise (ValueError "Secret did not contain SecretString or SecretBinary")
         end
     end, (t_call ++ [EvGetSecretValue secret_name])%list).
Proof.
  intros Hresp. subst t_call.
  unfold get_secret, bind, log, emit, try_except, call.
  rewrite Hresp.
  destruct (SecretString resp) as [s|], (SecretBinary resp) as [b|]; simpl;
    repeat match goal with
           | |- context [String.eqb ?x ""] => destruct (String.eqb x ""); simpl
           | |- context [json_loads self ?x] => destruct (json_loads self x); simpl
           end; reflexivity.
Qed.

(** C9: a [SecretString] that [json.loads] accepts is returned as parsed,
    whatever kind of JSON value it is; no wrapping under ["secret"]. *)
Theorem get_secret_returns_parsed_json (resp : SecretResponse) (s : string) (v : PyVal) :
  json_loads self "" = None ->
  get_secret_value self t_call secret_name = Ok resp ->
  SecretString resp = Some s ->
  json_loads self s = Some v ->
  get_secret self secret_name t = (Ok v, (t_call ++ [EvGetSecretValue secret_name])%list).
Proof.
  intros Hempty Hresp Hs Hv.
  rewrite (get_secret_response resp Hresp), Hs.
  destruct (String.eqb_spec s "") as [->|_].
  - congruence.
  - now rewrite Hv.
Qed.

(** C10: an empty [SecretString] with no [SecretBinary] counts as no payload:
    [get_secret] raises the [ValueError] of the missing payload. *)
Theorem get_secret_empty_string_is_missing (resp : SecretResponse) :
  get_secret_value self t_call secret_name = Ok resp ->
  SecretString resp = Some "" ->
  SecretBinary resp = None ->
  get_secret self secret_name t =
    (Raise (ValueError "Secret did not contain SecretString or SecretBinary"),
     (t_call ++ [EvGetSecretValue secret_name])%list).
Proof.
  intros Hresp Hs Hb.
  now rewrite (get_secret_response resp Hresp), Hs, Hb.
Qed.

End GetSecret.

Lemma get_secret_returns_parsed_json_witness :
  SecretsManagerService.get_secret Mock.world "prod/list" [] =
    (Ok (PList [PInt 1; PInt 2]),
     [EvLog DEBUG "Fetching secret prod/list from region eu-west-1";
      EvGetSecretValue "prod/list"]).
Proof.
  apply (get_secret_returns_parsed_json Mock.world "prod/list" []
           {| SecretString := Some Mock.doc_list; SecretBinary := None |}
           Mock.doc_list);
    reflexivity.
Defined.

Lemma get_secret_empty_string_is_missing_witness :
  SecretsManagerService.get_secret Mock.world "empty" [] =
    (Raise (ValueError "Secret did not contain SecretString or SecretBinary"),
     [EvLog DEBUG "Fetching secret empty from region eu-west-1";
      EvGetSecretValue "empty"]).
Proof.
  apply (get_secret_empty_string_is_missing Mock.world "empty" []
           {| SecretString := Some ""; SecretBinary := None |});
    reflexivity.
Defined.

(** ** Decoding result cells *)

Lemma dict_in_lookup k d : dict_in k d = true <-> exists v, dict_lookup k d = Some v.
Proof.
  induction d as [|[k' v'] d IH]; simpl.
  - split; [discriminate | intros [v H]; discriminate].
  - destruct (String.eqb k k'); [|exact IH].
    split; eauto.
Qed.

Lemma dict_in_lookup_None k d : dict_lookup k d = None -> dict_in k d = false.
Proof.
  intros H. destruct (dict_in k d) eqn:E; [|reflexivity].
  apply dict_in_lookup in E. destruct E as [v E]. congruence.
Qed.

Lemma dict_in_lookup_Some k d v : dict_lookup k d = Some v -> dict_in k d = true.
Proof. intros H. apply dict_in_lookup. eauto. Qed.

Lemma dict_get_lookup k d v : dict_lookup k d = Some v -> dict_get k d = v.
Proof. intros H. unfold dict_get, dict_get_default. now rewrite H. Qed.

Lemma truthy_PDict_lookup k d v : dict_lookup k d = Some v -> truthy (PDict d) = true.
Proof. destruct d; [discriminate | reflexivity]. Qed.

Section DecodeCell.
Import RedshiftService.

(** C2: a cell is decoded by the first tag present among [stringValue],
    [longValue], [doubleValue], [booleanValue], in that order; then a true
    [isNull] gives null; and a cell with none of the five tags gives the
    value of its first tag instead of failing.  The page with columns a, b
    and the record [x, null] decodes to the row [{a: x, b: null}]. *)
Theorem decode_cell_tag_order (d : Dict) :
  (forall earlier tag later v,
      value_tags = (earlier ++ tag :: later)%list ->
      (forall k, In k earlier -> dict_lookup k d = None) ->
      dict_lookup tag d = Some v ->
      decode_cell (PDict d) = Ok v)
  /\ (forall v,
      (forall k, In k value_tags -> dict_lookup k d = None) ->
      dict_lookup "isNull" d = Some v -> truthy v = true ->
      decode_cell (PDict d) = Ok PNone)
  /\ (forall k v d',
      d = (k, v) :: d' ->
      (forall k', In k' (value_tags ++ ["isNull"])%list -> dict_lookup k' d = None) ->
      decode_cell (PDict d) = Ok v)
  /\ decode_result Mock.page = Ok [[("a", PStr "x"); ("b", PNone)]].
Proof.
  split; [|split; [|split]].
  - intros earlier tag later v Hsplit Hearlier Htag.
    unfold decode_cell. rewrite (truthy_PDict_lookup _ _ _ Htag). simpl negb. cbv iota.
    unfold value_tags in Hsplit.
    destruct earlier as [|k1 [|k2 [|k3 [|k4 earlier]]]]; simpl in Hsplit;
      inversion Hsplit; subst;
      try (destruct earlier; discriminate);
      repeat match goal with
             | |- context [dict_in ?k d] =>
                 first [ rewrite (dict_in_lookup_Some k d v Htag)
                       | rewrite (dict_in_lookup_None k d (Hearlier k ltac:(simpl; tauto))) ]
             end;
      now rewrite (dict_get_lookup _ _ _ Htag).
  - intros v Hnone Hnull Htrue.
    unfold decode_cell. rewrite (truthy_PDict_lookup _ _ _ Hnull). simpl negb. cbv iota.
    rewrite !dict_in_lookup_None by (apply Hnone; simpl; tauto).
    rewrite (dict_in_lookup_Some _ _ _ Hnull), (dict_get_lookup _ _ _ Hnull), Htrue.
    reflexivity.
  - intros k v d' -> Hnone.
    unfold decode_cell. simpl truthy. simpl negb. cbv iota.
    rewrite !dict_in_lookup_None by (apply Hnone; simpl; tauto).
    simpl. unfold dict_get, dict_get_default. simpl. now rewrite String.eqb_refl.
  - reflexivity.
Qed.

(** C8: the cell [{isNull: false}] is not decoded to null but, through the
    first-tag fallback, to the boolean [False] it carries (any falsy value
    under [isNull] comes back as it is); and every falsy cell object, the
    empty dict included, is decoded to null. *)
Theorem decode_cell_isNull_false :
  decode_cell (PDict [("isNull", PBool false)]) = Ok (PBool false)
  /\ (forall v, truthy v = false -> decode_cell (PDict [("isNull", v)]) = Ok v)
  /\ (forall item, truthy item = false -> decode_cell item = Ok PNone).
Proof.
  split; [reflexivity|split].
  - intros v Hv. unfold decode_cell. simpl.
    unfold dict_get, dict_get_default. simpl. now rewrite Hv.
  - intros item Hitem. unfold decode_cell. now rewrite Hitem.
Qed.

End DecodeCell.

Lemma decode_cell_tag_order_witness :
  RedshiftService.decode_cell
    (PDict [("isNull", PBool true); ("doubleValue", PFloat 1.5%float);
            ("longValue", PInt 7)]) = Ok (PInt 7)
  /\ RedshiftService.decode_cell (PDict [("isNull", PBool true)]) = Ok PNone
  /\ RedshiftService.decode_cell (PDict [("arrayValue", PList [PInt 1])])
     = Ok (PList [PInt 1]).
Proof.
  split; [|split].
  - apply (proj1 (decode_cell_tag_order _) ["stringValue"] "longValue"
                 ["doubleValue"; "booleanValue"]).
    + reflexivity.
    + intros k [<-|[]]. reflexivity.
    + reflexivity.
  - apply (proj1 (proj2 (decode_cell_tag_order _)) (PBool true)).
    + intros k [<-|[<-|[<-|[<-|[]]]]]; reflexivity.
    + reflexivity.
    + reflexivity.
  - apply (proj1 (proj2 (proj2 (decode_cell_tag_order _))) "arrayValue" _ []).
    + reflexivity.
    + intros k [<-|[<-|[<-|[<-|[<-|[]]]]]]; reflexivity.
Defined.

Lemma decode_cell_isNull_false_witness :
  RedshiftService.decode_cell (PDict [("isNull", PInt 0)]) = Ok (PInt 0)
  /\ RedshiftService.decode_cell (PDict []) = Ok PNone.
Proof.
  split.
  - apply (proj1 (proj2 decode_cell_isNull_false)). reflexivity.
  - apply (proj2 (proj2 decode_cell_isNull_false)). reflexivity.
Defined.

(** ** Scoped sessions *)

Lemma close_calls_app conn t1 t2 :
  close_calls conn (t1 ++ t2) = close_calls conn t1 + close_calls conn t2.
Proof.
  induction t1 as [|ev t1 IH]; simpl; [reflexivity|].
  destruct ev; auto. rewrite IH. lia.
Qed.

Lemma close_quietly_Ok self conn what t :
  conn_close self t conn = Ok tt ->
  close_quietly self conn what t = (Ok tt, (t ++ [EvClose conn])%list).
Proof. intros H. unfold close_quietly, try_except, call. now rewrite H. Qed.

Lemma close_quietly_Exception self conn what t e :
  conn_close self t conn = Raise e -> is_Exception e = true ->
  close_quietly self conn what t =
    (Ok tt, (t ++ [EvClose conn; EvLog ERROR what])%list).
Proof.
  intros H He. unfold close_quietly, try_except, call, log, emit.
  rewrite H, He. now rewrite app_assoc_cons.
Qed.

Lemma try_finally_cleanup_Ok {A} (m : M A) cleanup t r t1 t2 :
  m t = (r, t1) -> r <> OutOfFuel -> cleanup t1 = (Ok tt, t2) ->
  try_finally m cleanup t = (r, t2).
Proof.
  intros Hm Hr Hc. unfold try_finally. rewrite Hm.
  destruct r; try congruence; now rewrite Hc.
Qed.

Section ScopedSessions.
Import RdsMySQLService RedshiftService.
Context {A : Type}.
Variable self : World.
Variables (secret_name host : option string) (port : option Z).
Variables (database user password : option string) (ssl : option Dict).
Variable body : Conn -> M A.

(** C7, as the code has it: once the session is open, leaving the [with]
    block calls [close] exactly once, whether the body returned or raised.
    When [close] returns, or fails with an [Exception] (which is logged and
    dropped), the outcome of the block is the outcome of the body; only
    what [except Exception] does not catch ([KeyboardInterrupt],
    [SystemExit]) leaves the block in place of it, unlogged. *)
Theorem connect_closes_exactly_once (t t0 t1 : Trace) (conn : Conn) (r : Res A) :
  body conn t0 = (r, t1) ->
  r <> OutOfFuel ->
  conn_close self t1 conn <> OutOfFuel ->
  let leaving (what : string) : Res A * Trace :=
    match conn_close self t1 conn with
    | Raise e =>
        if is_Exception e then (r, t1 ++ [EvClose conn; EvLog ERROR what])
        else (Raise e, t1 ++ [EvClose conn])
    | _ => (r, t1 ++ [EvClose conn])
    end in
  (connect_enter self secret_name host port database user password ssl t = (Ok conn, t0) ->
   connect self secret_name host port database user password ssl body t
     = leaving "Error closing MySQL connection"
   /\ close_calls conn (snd (leaving "Error closing MySQL connection"))
      = S (close_calls conn t1))
  /\
  (connect_psycopg2_enter self secret_name host port database user password t = (Ok conn, t0) ->
   connect_psycopg2 self secret_name host port database user password body t
     = leaving "Error closing Redshift psycopg2 connection"
   /\ close_calls conn (snd (leaving "Error closing Redshift psycopg2 connection"))
      = S (close_calls conn t1)).
Proof.
  intros Hbody Hr Hclose leaving.
  assert (Hexit : forall what,
             try_finally (body conn) (close_quietly self conn what) t0 = leaving what).
  { intros what. subst leaving. cbv beta.
    destruct (conn_close self t1 conn) as [[]|e|] eqn:Hc; [| |congruence].
    - eapply try_finally_cleanup_Ok; eauto using close_quietly_Ok.
    - destruct (is_Exception e) eqn:He.
      + eapply try_finally_cleanup_Ok; eauto using close_quietly_Exception.
      + unfold try_finally. rewrite Hbody.
        destruct r; [| |congruence];
          unfold close_quietly, try_except, call; now rewrite Hc, He. }
  assert (Hcount : forall what,
             close_calls conn (snd (leaving what)) = S (close_calls conn t1)).
  { intros what. subst leaving. cbv beta.
    destruct (conn_close self t1 conn) as [[]|e|]; [| destruct (is_Exception e) |];
      simpl snd; rewrite close_calls_app; simpl; rewrite Nat.eqb_refl; lia. }
  split; intros Henter; (split; [|apply Hcount]).
  - unfold connect. rewrite (bind_Ok _ _ _ _ _ Henter). apply Hexit.
  - unfold connect_psycopg2. rewrite (bind_Ok _ _ _ _ _ Henter). apply Hexit.
Qed.

End ScopedSessions.

(** A body that raises before a [close] that fails: the caller still sees
    the body's error, after exactly one [close]. *)
Lemma connect_closes_exactly_once_witness :
  RdsMySQLService.connect Mock.world_close_fails None (Some "h") None None (Some "u")
      None None (fun _ => raise (A := unit) (RuntimeError "boom")) [] =
    (Raise (RuntimeError "boom"),
     [EvMySQLConnect {| my_host := PStr "h"; my_port := 3306; my_user := PStr "u";
                        my_password := PNone; my_db := PNone;
                        my_connect_timeout := 10; my_ssl := PNone |};
      EvClose 0; EvLog ERROR "Error closing MySQL connection"])
  /\ RedshiftService.connect_psycopg2 Mock.world None (Some "h") None None (Some "u")
      None (fun c => ret c) [] =
    (Ok 0%nat,
     [EvPgConnect {| pg_host := PStr "h"; pg_port := 5439; pg_dbname := PNone;
                     pg_user := PStr "u"; pg_password := PNone |};
      EvClose 0]).
Proof.
  split.
  - refine (proj1 (proj1 (connect_closes_exactly_once
             Mock.world_close_fails None (Some "h") None None (Some "u") None None
             (fun _ => raise (RuntimeError "boom")) [] _ _ 0%nat _ eq_refl _ _) eq_refl));
      discriminate.
  - refine (proj1 (proj2 (connect_closes_exactly_once
             Mock.world None (Some "h") None None (Some "u") None None
             (fun c => ret c) [] _ _ 0%nat _ eq_refl _ _) eq_refl));
      discriminate.
Defined.

(** The body fails, and then [close] is interrupted: the caller sees the
    interrupt, not the body's error, and nothing is logged. *)
Lemma close_interrupt_counterexample :
  RedshiftService.connect_psycopg2 (Scenario.settles "FINISHED" None) None
      (Some "wh.internal") None None (Some "analyst") None
      (fun _ => raise (A := unit) (RuntimeError "boom")) [] =
    (Raise KeyboardInterrupt,
     [EvPgConnect {| pg_host := PStr "wh.internal"; pg_port := 5439; pg_dbname := PNone;
                     pg_user := PStr "analyst"; pg_password := PNone |};
      EvClose 0]).
Proof. reflexivity. Qed.

(** ** Explicit connection parameters *)

Section ExplicitParameters.
Import RdsMySQLService RedshiftService.
Variable self : World.
Variables (secret_name : option string) (host user : string) (port : option Z).
Variables (database password : option string) (ssl : option Dict).

(** What the drivers must receive when the caller gives [host], [user]
    and the rest explicitly. *)
Let mysql_args : MySQLConnectArgs :=
  {| my_host := PStr host;
     my_port := match port with Some p => p | None => 3306%Z end;
     my_user := PStr user;
     my_password := opt_str password;
     my_db := opt_str database;
     my_connect_timeout := 10;
     my_ssl := match ssl with Some d => PDict d | None => PNone end |}.

Let pg_args : PgConnectArgs :=
  {| pg_host := PStr host;
     pg_port := match port with Some p => p | None => 5439%Z end;
     pg_dbname := opt_str database;
     pg_user := PStr user;
     pg_password := opt_str password |}.

(** C6: with no secret name and a non-empty host and user, the driver is
    called with exactly the supplied values, the port being 3306 (MySQL) or
    5439 (Redshift) when omitted; opening the session records that driver
    call and nothing else, and the whole scoped run is the same in front of
    any vault: the vault is not contacted. *)
Theorem explicit_parameters_unchanged (t : Trace) :
  truthy (opt_str secret_name) = false ->
  truthy (PStr host) = true ->
  truthy (PStr user) = true ->
  connect_enter self secret_name (Some host) port database (Some user) password ssl t
    = (pymysql_connect self t mysql_args, t ++ [EvMySQLConnect mysql_args])
  /\ connect_psycopg2_enter self secret_name (Some host) port database (Some user) password t
    = (psycopg2_connect self t pg_args, t ++ [EvPgConnect pg_args])
  /\ (forall A (body : Conn -> M A) vault loads,
        connect (set_vault self vault loads) secret_name (Some host) port database
                (Some user) password ssl body t
        = connect self secret_name (Some host) port database (Some user) password ssl body t
        /\ connect_psycopg2 (set_vault self vault loads) secret_name (Some host) port
                database (Some user) password body t
        = connect_psycopg2 self secret_name (Some host) port database (Some user)
                password body t).
Proof.
  intros Hsecret Hhost Huser.
  assert (Hmy : forall w,
             connect_enter w secret_name (Some host) port database (Some user) password ssl t
             = (pymysql_connect w t mysql_args, t ++ [EvMySQLConnect mysql_args])).
  { intros w. unfold connect_enter.
    change (opt_str (Some host)) with (PStr host).
    change (opt_str (Some user)) with (PStr user).
    rewrite Hhost, Huser. simpl orb. cbv iota.
    destruct secret_name as [name|];
      [change (opt_str (Some name)) with (PStr name) in Hsecret; rewrite Hsecret|];
      reflexivity. }
  assert (Hpg : forall w,
             connect_psycopg2_enter w secret_name (Some host) port database (Some user) password t
             = (psycopg2_connect w t pg_args, t ++ [EvPgConnect pg_args])).
  { intros w. unfold connect_psycopg2_enter.
    change (opt_str (Some host)) with (PStr host).
    change (opt_str (Some user)) with (PStr user).
    rewrite Hhost, Huser. simpl orb. cbv iota.
    destruct secret_name as [name|];
      [change (opt_str (Some name)) with (PStr name) in Hsecret; rewrite Hsecret|];
      reflexivity. }
  split; [apply Hmy | split; [apply Hpg|]].
  intros A body vault loads. split.
  - unfold connect, bind. rewrite !Hmy. reflexivity.
  - unfold connect_psycopg2, bind. rewrite !Hpg. reflexivity.
Qed.

End ExplicitParameters.

Lemma explicit_parameters_unchanged_witness :
  RdsMySQLService.connect_enter Mock.world None (Some "db.internal") None (Some "shop")
      (Some "admin") (Some "pw") None [] =
    (Ok 0%nat,
     [EvMySQLConnect {| my_host := PStr "db.internal"; my_port := 3306;
                        my_user := PStr "admin"; my_password := PStr "pw";
                        my_db := PStr "shop"; my_connect_timeout := 10;
                        my_ssl := PNone |}])
  /\ RedshiftService.connect_psycopg2_enter Mock.world (Some "") (Some "wh.internal")
      (Some 5440%Z) None (Some "analyst") None [] =
    (Ok 0%nat,
     [EvPgConnect {| pg_host := PStr "wh.internal"; pg_port := 5440; pg_dbname := PNone;
                     pg_user := PStr "analyst"; pg_password := PNone |}]).
Proof.
  split.
  - exact (proj1 (explicit_parameters_unchanged Mock.world None "db.internal" "admin"
                    None (Some "shop") (Some "pw") None [] eq_refl eq_refl eq_refl)).
  - exact (proj1 (proj2 (explicit_parameters_unchanged Mock.world (Some "") "wh.internal"
                    "analyst" (Some 5440%Z) None None None [] eq_refl eq_refl eq_refl))).
Defined.

(** ** Code that only appends to the trace *)

Lemma appends_weaken {A} evs evs' (m : M A) : appends (evs ++ evs') m -> appends evs m.
Proof.
  intros H t. destruct (H t) as (r & t' & E).
  exists r, (evs' ++ t'). now rewrite E, <- app_assoc.
Qed.

Lemma appends_nil {A} evs (m : M A) : appends evs m -> appends [] m.
Proof. apply (appends_weaken [] evs). Qed.

Lemma appends_ret {A} (a : A) : appends [] (ret a).
Proof. intros t. exists (Ok a), []. unfold ret. now rewrite !app_nil_r. Qed.

Lemma appends_raise {A} e : appends [] (raise (A := A) e).
Proof. intros t. exists (Raise e), []. unfold raise. now rewrite !app_nil_r. Qed.

Lemma appends_lift {A} (r : Res A) : appends [] (lift r).
Proof. intros t. exists r, []. unfold lift. now rewrite !app_nil_r. Qed.

Lemma appends_call {A} ev (f : Trace -> Res A) : appends [ev] (call ev f).
Proof. intros t. exists (f t), []. reflexivity. Qed.

Lemma appends_emit ev : appends [ev] (emit ev).
Proof. intros t. exists (Ok tt), []. reflexivity. Qed.

Lemma appends_bind {A B} evs (m : M A) (k : A -> M B) :
  appends evs m -> (forall a, appends [] (k a)) -> appends evs (bind m k).
Proof.
  intros Hm Hk t. destruct (Hm t) as (r & t' & E). unfold bind. rewrite E.
  destruct r as [a|e|]; eauto.
  destruct (Hk a (t ++ evs ++ t')) as (r2 & t2 & E2). rewrite E2.
  exists r2, (t' ++ t2). simpl. now rewrite <- !app_assoc.
Qed.

Lemma appends_emit_bind {B} ev evs (k : unit -> M B) :
  appends evs (k tt) -> appends (ev :: evs) (bind (emit ev) k).
Proof.
  intros Hk t. unfold bind, emit.
  destruct (Hk (t ++ [ev])) as (r & t' & E). rewrite E.
  exists r, t'. now rewrite <- app_assoc.
Qed.

Lemma appends_try_except {A} evs (m : M A) catches handler :
  appends evs m -> (forall e, appends [] (handler e)) ->
  appends evs (try_except m catches handler).
Proof.
  intros Hm Hh t. destruct (Hm t) as (r & t' & E). unfold try_except. rewrite E.
  destruct r as [a|e|]; eauto.
  destruct (catches e); eauto.
  destruct (Hh e (t ++ evs ++ t')) as (r2 & t2 & E2). rewrite E2.
  exists r2, (t' ++ t2). simpl. now rewrite <- !app_assoc.
Qed.

Lemma appends_try_finally {A} evs (m : M A) cleanup :
  appends evs m -> appends [] cleanup -> appends evs (try_finally m cleanup).
Proof.
  intros Hm Hc t. destruct (Hm t) as (r & t' & E). unfold try_finally. rewrite E.
  destruct (Hc (t ++ evs ++ t')) as (rc & t2 & E2). simpl in E2.
  assert (Hout : forall r', exists r0 t0, (r', t ++ evs ++ t' ++ t2) = (r0 : Res A, t ++ evs ++ t0))
    by (intros; eauto).
  destruct r as [a|e|]; eauto; rewrite E2, <- !app_assoc;
    destruct rc as [[]|ec|]; apply Hout.
Qed.

Lemma appends_sleep self secs : appends [] (sleep self secs).
Proof. apply (appends_nil [EvSleep secs]), appends_call. Qed.

Lemma appends_log level msg : appends [EvLog level msg] (log level msg).
Proof. apply appends_emit. Qed.

Lemma appends_log_raise {A} level msg e :
  appends [] (log level msg ;; raise (A := A) e)%py.
Proof.
  apply (appends_nil [EvLog level msg]), appends_bind;
    [apply appends_log | intros; apply appends_raise].
Qed.

Lemma appends_close_quietly self conn what : appends [] (close_quietly self conn what).
Proof.
  apply (appends_nil [EvClose conn]), appends_try_except.
  - apply appends_call.
  - intros e. apply (appends_nil _ _ (appends_log ERROR what)).
Qed.

Lemma appends_get_secret self secret_name :
  appends [EvLog DEBUG (SecretsManagerService.fetching_message self secret_name);
           EvGetSecretValue secret_name]
          (SecretsManagerService.get_secret self secret_name).
Proof.
  unfold SecretsManagerService.get_secret, log.
  apply appends_emit_bind, appends_bind.
  - apply appends_try_except; [apply appends_call | intros; apply appends_log_raise].
  - intros response.
    destruct (SecretString response) as [s|], (SecretBinary response) as [b|];
      repeat match goal with
             | |- appends [] (if ?c then _ else _) => destruct c
             | |- appends [] (match ?c with Some _ => _ | None => _ end) => destruct c
             end;
      first [apply appends_ret | apply appends_raise].
Qed.

Lemma appends_wait_loop self statement_id poll_interval timeout fuel :
  forall waited,
    appends [] (RedshiftService.wait_loop fuel self statement_id poll_interval timeout waited).
Proof.
  induction fuel as [|fuel IH]; intros waited; simpl;
    destruct (PrimFloat.ltb waited timeout);
    try apply appends_ret; try apply appends_lift.
  apply (appends_nil [EvDescribeStatement statement_id]), appends_bind.
  - apply appends_call.
  - intros describe.
    destruct (RedshiftService.opt_eqb (Status describe) "FINISHED"); [apply appends_ret|].
    match goal with |- appends [] (if ?c then _ else _) => destruct c end.
    + apply appends_raise.
    + apply appends_bind; [apply appends_sleep | intros; apply IH].
Qed.

(** ** The compute target of a Data API statement *)

Lemma dict_lookup_set_same k v d : dict_lookup k (dict_set k v d) = Some v.
Proof.
  induction d as [|[k' v'] d IH]; simpl.
  - now rewrite String.eqb_refl.
  - destruct (String.eqb k k') eqn:E; simpl; rewrite E; [reflexivity | exact IH].
Qed.

Lemma dict_lookup_set_other k k' v d :
  String.eqb k k' = false -> dict_lookup k (dict_set k' v d) = dict_lookup k d.
Proof.
  intros Hk. induction d as [|[k0 v0] d IH]; simpl.
  - now rewrite Hk.
  - destruct (String.eqb k' k0) eqn:E; simpl.
    + apply String.eqb_eq in E. subst k0. now rewrite Hk.
    + now rewrite IH.
Qed.

Lemma dict_lookup_set_if_truthy_other k k' v d :
  String.eqb k k' = false ->
  dict_lookup k (RedshiftService.set_if_truthy k' v d) = dict_lookup k d.
Proof.
  intros Hk. unfold RedshiftService.set_if_truthy.
  destruct (truthy (opt_str v)); [now apply dict_lookup_set_other | reflexivity].
Qed.

Lemma dict_lookup_set_if_truthy_same k v d :
  truthy (opt_str v) = true ->
  dict_lookup k (RedshiftService.set_if_truthy k v d) = Some (opt_str v).
Proof.
  intros Hv. unfold RedshiftService.set_if_truthy. rewrite Hv.
  apply dict_lookup_set_same.
Qed.

Section ComputeTarget.
Import RedshiftService.
Variable self : World.
Variables (sql database : string).
Variables (cluster_identifier workgroup_name db_user secret_arn : option string).
Variables (wait : bool) (poll_interval timeout : float) (fuel : nat).

Let kwargs : Dict :=
  statement_kwargs sql database cluster_identifier workgroup_name db_user secret_arn.

Lemma appends_execute_query_data_api :
  truthy (py_or (opt_str cluster_identifier) (opt_str workgroup_name)) = true ->
  appends [EvExecuteStatement kwargs]
    (execute_query_data_api fuel self sql database cluster_identifier workgroup_name
       db_user secret_arn wait poll_interval timeout).
Proof.
  intros Htarget. unfold execute_query_data_api. rewrite Htarget. simpl negb. cbv iota.
  apply appends_bind.
  - apply appends_try_except; [|intros; apply appends_log_raise].
    apply appends_bind; [apply appends_call|].
    intros resp. destruct (Id resp); [apply appends_ret | apply appends_raise].
  - intros statement_id. destruct wait; simpl negb; cbv iota; [|apply appends_ret].
    apply appends_bind; [apply appends_wait_loop|]. intros _.
    apply (appends_nil [EvGetStatementResult statement_id]), appends_bind.
    + apply appends_try_except; [apply appends_call | intros; apply appends_log_raise].
    + intros result. apply appends_lift.
Qed.

(** C3, as the code has it: with neither [cluster_identifier] nor
    [workgroup_name] (absent or empty) the call raises [ValueError] and
    leaves the trace as it was, so nothing is submitted; with both, there is
    no validation error: the statement is submitted, and its arguments carry
    both [ClusterIdentifier] and [WorkgroupName]. *)
Theorem target_validation (t : Trace) :
  (truthy (opt_str cluster_identifier) = false ->
   truthy (opt_str workgroup_name) = false ->
   execute_query_data_api fuel self sql database cluster_identifier workgroup_name
       db_user secret_arn wait poll_interval timeout t
   = (Raise (ValueError "Either cluster_identifier or workgroup_name must be provided"), t))
  /\
  (truthy (opt_str cluster_identifier) = true ->
   truthy (opt_str workgroup_name) = true ->
   dict_lookup "ClusterIdentifier" kwargs = Some (opt_str cluster_identifier)
   /\ dict_lookup "WorkgroupName" kwargs = Some (opt_str workgroup_name)
   /\ exists r t',
       execute_query_data_api fuel self sql database cluster_identifier workgroup_name
         db_user secret_arn wait poll_interval timeout t
       = (r, t ++ EvExecuteStatement kwargs :: t')).
Proof.
  split.
  - intros Hc Hw. unfold execute_query_data_api, py_or. rewrite Hc, Hw. reflexivity.
  - intros Hc Hw. split; [|split].
    + subst kwargs. unfold statement_kwargs.
      rewrite !dict_lookup_set_if_truthy_other by reflexivity.
      now apply dict_lookup_set_if_truthy_same.
    + subst kwargs. unfold statement_kwargs.
      rewrite !dict_lookup_set_if_truthy_other by reflexivity.
      now apply dict_lookup_set_if_truthy_same.
    + apply appends_execute_query_data_api. unfold py_or. now rewrite Hc.
Qed.

End ComputeTarget.

Lemma target_validation_witness :
  RedshiftService.execute_query_data_api 0 Mock.world "SELECT 1" "dev" (Some "") None
      (Some "awsuser") None true Mock.tenth Mock.half [] =
    (Raise (ValueError "Either cluster_identifier or workgroup_name must be provided"), [])
  /\ dict_lookup "WorkgroupName"
       (RedshiftService.statement_kwargs "SELECT 1" "dev" (Some "cluster-1") (Some "wg-1")
          None None) = Some (PStr "wg-1").
Proof.
  split.
  - exact (proj1 (target_validation Mock.world "SELECT 1" "dev" (Some "") None
                    (Some "awsuser") None true Mock.tenth Mock.half 0 [])
                 eq_refl eq_refl).
  - exact (proj1 (proj2 (proj2 (target_validation Mock.world "SELECT 1" "dev"
                    (Some "cluster-1") (Some "wg-1") None None true Mock.tenth Mock.half 0 [])
                 eq_refl eq_refl))).
Defined.

(** With both targets named, the statement is submitted with both. *)
Lemma both_targets_counterexample :
  RedshiftService.execute_query_data_api 0 Mock.world "SELECT 1" "dev"
      (Some "cluster-1") (Some "wg-1") None None false Mock.tenth Mock.half [] =
    (Ok [],
     [EvExecuteStatement [("Sql", PStr "SELECT 1"); ("Database", PStr "dev");
                          ("ClusterIdentifier", PStr "cluster-1");
                          ("WorkgroupName", PStr "wg-1")]]).
Proof. reflexivity. Qed.

(** ** Secret name against explicit parameters *)

Lemma appends_params_from_secret_mysql self secret_name :
  appends [EvLog DEBUG (SecretsManagerService.fetching_message self secret_name);
           EvGetSecretValue secret_name]
          (RdsMySQLService._params_from_secret self secret_name).
Proof.
  unfold RdsMySQLService._params_from_secret.
  apply appends_bind; [apply appends_get_secret|]. intros secret_v.
  apply appends_bind; [apply appends_lift|]. intros secret.
  apply appends_bind; [apply appends_lift|]. intros port.
  apply appends_ret.
Qed.

Lemma appends_params_from_secret_redshift self secret_name :
  appends [EvLog DEBUG (SecretsManagerService.fetching_message self secret_name);
           EvGetSecretValue secret_name]
          (RedshiftService.params_from_secret self secret_name).
Proof.
  unfold RedshiftService.params_from_secret.
  apply appends_bind; [apply appends_get_secret|]. intros secret_v.
  apply appends_bind; [apply appends_lift|]. intros secret.
  apply appends_bind; [apply appends_lift|]. intros port.
  apply appends_ret.
Qed.

(** A scoped run only appends to the trace when its body does. *)
Lemma appends_connect {A} self secret_name host port database user password ssl
      (body : Conn -> M A) :
  (forall conn, appends [] (body conn)) ->
  appends [] (RdsMySQLService.connect self secret_name host port database user
                password ssl body).
Proof.
  intros Hbody. unfold RdsMySQLService.connect.
  apply appends_bind.
  - unfold RdsMySQLService.connect_enter.
    apply appends_bind.
    + destruct secret_name as [name|];
        repeat match goal with
               | |- appends [] (if ?c then _ else _) => destruct c
               end;
        first [ apply (appends_nil _ _ (appends_params_from_secret_mysql self name))
              | apply appends_raise | apply appends_ret ].
    + intros params. apply (appends_nil _ _ (appends_call _ _)).
  - intros conn. apply appends_try_finally; [apply Hbody|].
    apply appends_close_quietly.
Qed.

Section SecretOrExplicit.
Import RdsMySQLService RedshiftService.
Variable self : World.
Variables (secret_name host : option string) (port : option Z).
Variables (database user password : option string) (ssl : option Dict).

(** C4, as the code has it: with no secret name and no host or no user,
    entering the scope raises [ValueError] and leaves the trace as it was
    (no vault fetch, no connection attempt); with a secret name, explicit
    parameters given along with it are no error: they are ignored, and the
    vault is asked for the secret. *)
Theorem secret_or_explicit (t : Trace) :
  (truthy (opt_str secret_name) = false ->
   truthy (opt_str host) = false \/ truthy (opt_str user) = false ->
   let error := ValueError "host and user must be provided if secret_name is not used" in
   (forall A (body : Conn -> M A),
       connect self secret_name host port database user password ssl body t
         = (Raise error, t)
       /\ connect_psycopg2 self secret_name host port database user password body t
         = (Raise error, t)))
  /\
  (truthy (opt_str secret_name) = true ->
   let fetch := [EvLog DEBUG (SecretsManagerService.fetching_message self
                                (str_of_opt secret_name));
                 EvGetSecretValue (str_of_opt secret_name)] in
   (forall A (body : Conn -> M A),
       connect self secret_name host port database user password ssl body t
         = connect self secret_name None None None None None None body t
       /\ connect_psycopg2 self secret_name host port database user password body t
         = connect_psycopg2 self secret_name None None None None None body t)
   /\ (exists r t',
         connect_enter self secret_name host port database user password ssl t
           = (r, t ++ fetch ++ t'))
   /\ (exists r t',
         connect_psycopg2_enter self secret_name host port database user password t
           = (r, t ++ fetch ++ t'))).
Proof.
  split.
  - intros Hsecret Hmissing error A body.
    assert (Hguard : (negb (truthy (opt_str host)) || negb (truthy (opt_str user)))%bool = true)
      by (destruct Hmissing as [-> | ->]; auto using orb_true_r).
    unfold connect, connect_psycopg2, connect_enter, connect_psycopg2_enter.
    rewrite Hguard.
    destruct secret_name as [name|];
      [change (opt_str (Some name)) with (PStr name) in Hsecret; rewrite Hsecret|];
      split; reflexivity.
  - intros Hsecret fetch.
    destruct secret_name as [name|]; [|discriminate].
    change (opt_str (Some name)) with (PStr name) in Hsecret.
    split; [|split].
    + intros A body.
      unfold connect, connect_psycopg2, connect_enter, connect_psycopg2_enter.
      rewrite Hsecret. split; reflexivity.
    + unfold connect_enter. rewrite Hsecret.
      eapply appends_bind; [apply appends_params_from_secret_mysql|].
      intros params. apply (appends_nil _ _ (appends_call _ _)).
    + unfold connect_psycopg2_enter. rewrite Hsecret.
      eapply appends_bind; [apply appends_params_from_secret_redshift|].
      intros params. apply (appends_nil _ _ (appends_call _ _)).
Qed.

End SecretOrExplicit.

Lemma secret_or_explicit_witness :
  RdsMySQLService.connect Mock.world None None (Some 3306%Z) (Some "shop") (Some "admin")
      None None (fun c => ret c) [] =
    (Raise (ValueError "host and user must be provided if secret_name is not used"), [])
  /\ RedshiftService.connect_psycopg2 Mock.world (Some "prod/db") (Some "elsewhere") None
      None (Some "someone") None (fun c => ret c) [] =
     RedshiftService.connect_psycopg2 Mock.world (Some "prod/db") None None None None None
      (fun c => ret c) [].
Proof.
  split.
  - exact (proj1 (proj1 (secret_or_explicit Mock.world None None (Some 3306%Z)
                    (Some "shop") (Some "admin") None None [])
                  eq_refl (or_introl eq_refl) _ (fun c => ret c))).
  - exact (proj2 (proj1 (proj2 (secret_or_explicit Mock.world (Some "prod/db")
                    (Some "elsewhere") None None (Some "someone") None None [])
                  eq_refl) _ (fun c => ret c))).
Defined.

(** A secret name together with a full explicit set: the vault is fetched
    and the session is opened with the secret's values. *)
Lemma secret_and_explicit_counterexample :
  RdsMySQLService.connect Mock.world (Some "prod/db") (Some "elsewhere") (Some 3306%Z)
      (Some "shop") (Some "someone") (Some "guess") None (fun c => ret c) [] =
    (Ok 2,
     [EvLog DEBUG "Fetching secret prod/db from region eu-west-1";
      EvGetSecretValue "prod/db";
      EvMySQLConnect {| my_host := PStr "db.internal"; my_port := 3307;
                        my_user := PStr "admin"; my_password := PStr "pw";
                        my_db := PNone; my_connect_timeout := 10; my_ssl := PNone |};
      EvClose 2]).
Proof. reflexivity. Qed.

(** ** Secrets without a host or a user *)



Section IncompleteSecret.
Import RdsMySQLService RedshiftService.
Variable self : World.
Variable secret_name : string.
Variables (host : option string) (port : option Z).
Variables (database user password : option string) (ssl : option Dict).
Variable secret : Dict.
Variables t t1 : Trace.



End IncompleteSecret.



(** ** Polling a statement that never ends *)

Section Polling.
Import RedshiftService.
Variable self : World.
Variable statement_id : string.
Variables poll_interval timeout : float.
Hypothesis Hnever : never_terminal self statement_id.
Hypothesis Hsleep : sleeps_return self poll_interval.

Lemma wait_loop_S fuel waited :
  wait_loop (S fuel) self statement_id poll_interval timeout waited
  = if PrimFloat.ltb waited timeout then
      (describe <- call (EvDescribeStatement statement_id)
                        (fun t => describe_statement self t statement_id) ;;
       let status := Status describe in
       if opt_eqb status "FINISHED" then ret tt
       else if (opt_eqb status "ABORTED" || opt_eqb status "FAILED"
                || opt_eqb status "TIMED_OUT")%bool then
         raise (RuntimeError ("Redshift Data API statement " ++ statement_id
                              ++ " failed with status " ++ str_of_opt status
                              ++ ": " ++ str_of_opt (Error describe))%string)
       else
         sleep self poll_interval ;;
         wait_loop fuel self statement_id poll_interval timeout
                   (waited + poll_interval)%float)%py
    else ret tt.
Proof. reflexivity. Qed.

Lemma wait_loop_round fuel j t :
  PrimFloat.ltb (waited_after poll_interval j) timeout = true ->
  wait_loop (S fuel) self statement_id poll_interval timeout
            (waited_after poll_interval j) t
  = wait_loop fuel self statement_id poll_interval timeout
              (waited_after poll_interval (S j))
              (t ++ [EvDescribeStatement statement_id; EvSleep poll_interval]).
Proof.
  intros Hlt. rewrite wait_loop_S, Hlt.
  destruct (Hnever t) as (describe & Hdescribe & Hstatus).
  unfold is_terminal in Hstatus.
  apply orb_false_elim in Hstatus. destruct Hstatus as [Hstatus Htimed_out].
  apply orb_false_elim in Hstatus. destruct Hstatus as [Hstatus Hfailed].
  apply orb_false_elim in Hstatus. destruct Hstatus as [Hfinished Haborted].
  unfold bind at 1. unfold call at 1. rewrite Hdescribe. cbv beta iota zeta.
  rewrite Hfinished, Haborted, Hfailed, Htimed_out.
  cbv beta iota delta [orb].
  unfold bind, sleep, call. rewrite Hsleep.
  change (waited_after poll_interval (S j))
    with (waited_after poll_interval j + poll_interval)%float.
  now rewrite app_assoc_cons.
Qed.

Lemma wait_loop_stops n :
  forall fuel j t,
    (forall i, j <= i < j + n ->
               PrimFloat.ltb (waited_after poll_interval i) timeout = true) ->
    PrimFloat.ltb (waited_after poll_interval (j + n)) timeout = false ->
    n <= fuel ->
    wait_loop fuel self statement_id poll_interval timeout
              (waited_after poll_interval j) t
    = (Ok tt, t ++ poll_trace statement_id poll_interval n).
Proof.
  induction n as [|n IH]; intros fuel j t Hbefore Hat Hfuel.
  - rewrite Nat.add_0_r in Hat. simpl poll_trace. rewrite app_nil_r.
    destruct fuel; simpl wait_loop; now rewrite Hat.
  - destruct fuel as [|fuel]; [lia|].
    rewrite wait_loop_round by (apply Hbefore; lia).
    rewrite IH.
    + simpl poll_trace. now rewrite <- app_assoc.
    + intros i Hi. apply Hbefore. lia.
    + now replace (S j + n) with (j + S n) by lia.
    + lia.
Qed.

End Polling.

Lemma polls_until_tenth_half : polls_until 0.1 0.5 5.
Proof.
  split.
  - intros j Hj.
    do 5 (destruct j as [|j]; [vm_compute; reflexivity|]). lia.
  - vm_compute. reflexivity.
Qed.

(** C1, as the code has it: against a statement that never reaches a
    terminal status, and as long as each [time.sleep(poll_interval)]
    returns, the loop polls while [waited < timeout] and, once the
    accumulated [waited] has reached [timeout], ends without raising; the
    call then asks for the statement result, once, and its outcome is that
    of the fetch (decoded rows, or the error of [get_statement_result]).
    With [poll_interval=0.1] and [timeout=0.5], in binary64 arithmetic, the
    loop ends after exactly 5 polls. *)
Theorem timeout_falls_through_to_fetch :
  (forall (self : World) (sql database : string)
          (cluster_identifier workgroup_name db_user secret_arn : option string)
          (poll_interval timeout : float) (fuel k : nat) (t : Trace)
          (resp : ExecuteResponse) (statement_id : string),
      let kwargs := RedshiftService.statement_kwargs sql database cluster_identifier
                      workgroup_name db_user secret_arn in
      truthy (py_or (opt_str cluster_identifier) (opt_str workgroup_name)) = true ->
      execute_statement self t kwargs = Ok resp ->
      Id resp = Some statement_id ->
      never_terminal self statement_id ->
      sleeps_return self poll_interval ->
      polls_until poll_interval timeout k ->
      k <= fuel ->
      let t_fetch :=
        t ++ EvExecuteStatement kwargs :: poll_trace statement_id poll_interval k in
      RedshiftService.execute_query_data_api fuel self sql database cluster_identifier
          workgroup_name db_user secret_arn true poll_interval timeout t
      = match get_statement_result self t_fetch statement_id with
        | Ok result =>
            (RedshiftService.decode_result result,
             t_fetch ++ [EvGetStatementResult statement_id])
        | Raise e =>
            (Raise e,
             t_fetch ++ EvGetStatementResult statement_id
                     :: (if is_ClientError e
                         then [EvLog ERROR "Failed to fetch statement results"]
                         else []))
        | OutOfFuel => (OutOfFuel, t_fetch ++ [EvGetStatementResult statement_id])
        end)
  /\ polls_until 0.1 0.5 5.
Proof.
  split; [|exact polls_until_tenth_half].
  intros self sql database cluster_identifier workgroup_name db_user secret_arn
         poll_interval timeout fuel k t resp statement_id kwargs
         Htarget Hsubmit Hid Hnever Hsleep [Hbefore Hat] Hfuel t_fetch.
  unfold RedshiftService.execute_query_data_api. rewrite Htarget.
  cbv beta iota delta [negb]. fold kwargs.
  unfold bind at 1. unfold try_except at 1. unfold bind at 1. unfold call at 1.
  rewrite Hsubmit. cbv beta iota. rewrite Hid. unfold ret at 1. cbv beta iota.
  unfold bind at 1.
  change 0%float with (waited_after poll_interval 0).
  rewrite (wait_loop_stops self statement_id poll_interval timeout Hnever Hsleep k)
    by (try (intros i Hi; apply Hbefore; lia); auto).
  cbv beta iota.
  rewrite app_assoc_cons. fold t_fetch.
  unfold bind, try_except, call, lift.
  destruct (get_statement_result self t_fetch statement_id) as [result|e|]; try reflexivity.
  destruct (is_ClientError e); unfold log, emit, raise; simpl;
    now rewrite ?app_assoc_cons.
Qed.

Lemma timeout_falls_through_to_fetch_witness :
  RedshiftService.execute_query_data_api 8 Mock.world "SELECT 1" "dev" (Some "cluster-1")
      None None None true 0.1 0.5 [] =
    (Ok [[("a", PStr "x"); ("b", PNone)]],
     (EvExecuteStatement [("Sql", PStr "SELECT 1"); ("Database", PStr "dev");
                          ("ClusterIdentifier", PStr "cluster-1")]
      :: poll_trace "stmt-1" 0.1 5) ++ [EvGetStatementResult "stmt-1"]).
Proof.
  refine (proj1 timeout_falls_through_to_fetch Mock.world "SELECT 1" "dev"
            (Some "cluster-1") None None None 0.1%float 0.5%float 8 5 []
            {| Id := Some "stmt-1" |} "stmt-1" eq_refl eq_refl eq_refl _
            (fun _ => eq_refl) (proj2 timeout_falls_through_to_fetch) _).
  - intros t. eexists. split; reflexivity.
  - lia.
Defined.

(** The budget of 0.5 s runs out on a statement that is still [STARTED]:
    five polls, then the result is fetched and rows are returned. *)
Lemma local_timeout_counterexample :
  RedshiftService.execute_query_data_api 8 Mock.world "SELECT 1" "dev" (Some "cluster-1")
      None None None true 0.1 0.5 [] =
    (Ok [[("a", PStr "x"); ("b", PNone)]],
     [EvExecuteStatement [("Sql", PStr "SELECT 1"); ("Database", PStr "dev");
                          ("ClusterIdentifier", PStr "cluster-1")];
      EvDescribeStatement "stmt-1"; EvSleep 0.1;
      EvDescribeStatement "stmt-1"; EvSleep 0.1;
      EvDescribeStatement "stmt-1"; EvSleep 0.1;
      EvDescribeStatement "stmt-1"; EvSleep 0.1;
      EvDescribeStatement "stmt-1"; EvSleep 0.1;
      EvGetStatementResult "stmt-1"]).
Proof. vm_compute. reflexivity. Qed.

(** ** A statement that is finished at the first poll *)

Example finished_at_first_poll :
  RedshiftService.execute_query_data_api 1 Mock.world_finished "SELECT 1 AS test" "dev"
      None (Some "wg-1") None (Some "arn:secret") true
      RedshiftService.default_poll_interval RedshiftService.default_timeout [] =
    (Ok [[("a", PStr "x"); ("b", PNone)]],
     [EvExecuteStatement [("Sql", PStr "SELECT 1 AS test"); ("Database", PStr "dev");
                          ("WorkgroupName", PStr "wg-1");
                          ("SecretArn", PStr "arn:secret")];
      EvDescribeStatement "stmt-1";
      EvGetStatementResult "stmt-1"]).
Proof. vm_compute. reflexivity. Qed.

(** * Further properties of the module *)

(** ** get_secret: the other payloads and the vault's errors *)

Section GetSecretPayloads.
Import SecretsManagerService.
Variable self : World.
Variable secret_name : string.
Variable t : Trace.

Let t_call : Trace := t ++ [EvLog DEBUG (fetching_message self secret_name)].

(** X1: a non-empty [SecretString] that is not JSON comes back wrapped as
    [{"secret": <raw>}], whatever [SecretBinary] holds. *)
Theorem get_secret_wraps_plain_text (resp : SecretResponse) (s : string) :
  get_secret_value self t_call secret_name = Ok resp ->
  SecretString resp = Some s ->
  s <> "" ->
  json_loads self s = None ->
  get_secret self secret_name t =
    (Ok (PDict [("secret", PStr s)]), t_call ++ [EvGetSecretValue secret_name]).
Proof.
  intros Hresp Hs Hne Hjson.
  rewrite (get_secret_response self secret_name t resp Hresp), Hs.
  destruct (String.eqb_spec s ""); [contradiction|]. now rewrite Hjson.
Qed.

(** X2: when [SecretString] is absent or empty, a non-empty [SecretBinary]
    comes back wrapped as [{"secret_binary": <bytes>}]. *)
Theorem get_secret_wraps_binary (resp : SecretResponse) (b : string) :
  get_secret_value self t_call secret_name = Ok resp ->
  SecretString resp = None \/ SecretString resp = Some "" ->
  SecretBinary resp = Some b ->
  b <> "" ->
  get_secret self secret_name t =
    (Ok (PDict [("secret_binary", PBytes b)]), t_call ++ [EvGetSecretValue secret_name]).
Proof.
  intros Hresp Hs Hb Hne.
  rewrite (get_secret_response self secret_name t resp Hresp), Hb.
  destruct (String.eqb_spec b ""); [contradiction|].
  destruct Hs as [-> | ->]; reflexivity.
Qed.

(** X3: on every path [get_secret] asks the vault exactly once, right
    after its debug record; an error of the vault is raised again as it
    is, and is logged (once, at ERROR) exactly when it is a
    [ClientError]. *)
Theorem get_secret_asks_once :
  exists r extra,
    get_secret self secret_name t = (r, t_call ++ EvGetSecretValue secret_name :: extra)
    /\ vault_calls (EvGetSecretValue secret_name :: extra) = 1
    /\ (forall e, get_secret_value self t_call secret_name = Raise e ->
          r = Raise e
          /\ extra = if is_ClientError e
                     then [EvLog ERROR ("Failed to fetch secret " ++ secret_name)%string]
                     else [])
    /\ (forall resp, get_secret_value self t_call secret_name = Ok resp -> extra = []).
Proof.
  destruct (get_secret_value self t_call secret_name) as [resp|e|] eqn:Hvault.
  - rewrite (get_secret_response self secret_name t resp Hvault).
    eexists; exists []. split; [reflexivity|].
    split; [reflexivity|]. split; [discriminate | reflexivity].
  - exists (Raise e),
      (if is_ClientError e
       then [EvLog ERROR ("Failed to fetch secret " ++ secret_name)%string] else []).
    split; [|split; [|split]].
    + subst t_call. unfold get_secret, bind, log, emit, try_except, call.
      rewrite Hvault. destruct (is_ClientError e); simpl.
      * unfold raise. now rewrite <- !app_assoc.
      * now rewrite <- !app_assoc.
    + destruct (is_ClientError e); reflexivity.
    + intros e' [= <-]. split; reflexivity.
    + discriminate.
  - exists OutOfFuel, []. split; [|split; [|split]]; try discriminate; try reflexivity.
    subst t_call. unfold get_secret, bind, log, emit, try_except, call.
    rewrite Hvault. now rewrite <- !app_assoc.
Qed.

End GetSecretPayloads.

Lemma get_secret_wraps_plain_text_witness :
  SecretsManagerService.get_secret Mock.world "legacy/password" [] =
    (Ok (PDict [("secret", PStr "hunter2")]),
     [EvLog DEBUG "Fetching secret legacy/password from region eu-west-1";
      EvGetSecretValue "legacy/password"]).
Proof.
  apply (get_secret_wraps_plain_text Mock.world "legacy/password" []
           {| SecretString := Some "hunter2"; SecretBinary := None |} "hunter2");
    try reflexivity.
  discriminate.
Defined.

Lemma get_secret_wraps_binary_witness :
  SecretsManagerService.get_secret Scenario.binary_vault "blob" [] =
    (Ok (PDict [("secret_binary", PBytes "k3y")]),
     [EvLog DEBUG "Fetching secret blob from region eu-west-1"; EvGetSecretValue "blob"]).
Proof.
  apply (get_secret_wraps_binary Scenario.binary_vault "blob" []
           {| SecretString := Some ""; SecretBinary := Some "k3y" |} "k3y");
    try reflexivity.
  - right. reflexivity.
  - discriminate.
Defined.

Lemma get_secret_asks_once_witness :
  SecretsManagerService.get_secret Scenario.refuses "prod/db" [] =
    (Raise (ClientError "AccessDeniedException"),
     [EvLog DEBUG "Fetching secret prod/db from region None";
      EvGetSecretValue "prod/db";
      EvLog ERROR "Failed to fetch secret prod/db"]).
Proof.
  destruct (get_secret_asks_once Scenario.refuses "prod/db" [])
    as (r & extra & Hrun & _ & Herr & _).
  destruct (Herr (ClientError "AccessDeniedException") eq_refl) as [-> ->].
  exact Hrun.
Defined.

(** ** Resolving parameters from a secret *)






Section FromSecret.
Import RdsMySQLService RedshiftService.
Variable self : World.
Variable secret_name : string.
Variables (host : option string) (port : option Z).
Variables (database user password : option string) (ssl : option Dict).
Variables t t1 : Trace.

Lemma params_from_secret_mapping_mysql (secret : Dict) :
  SecretsManagerService.get_secret self secret_name t = (Ok (PDict secret), t1) ->
  _params_from_secret self secret_name t =
    match py_int (dict_get_default "port" (PInt 3306) secret) with
    | Ok p =>
        (Ok {| MySQLConnectionParams.host :=
                 py_or (py_or (dict_get "host" secret) (dict_get "hostname" secret))
                       (dict_get "url" secret);
               MySQLConnectionParams.port := p;
               MySQLConnectionParams.database :=
                 py_or (py_or (dict_get "dbname" secret) (dict_get "database" secret))
                       (dict_get "db" secret);
               MySQLConnectionParams.user :=
                 py_or (dict_get "username" secret) (dict_get "user" secret);
               MySQLConnectionParams.password := dict_get "password" secret;
               MySQLConnectionParams.connect_timeout := 10;
               MySQLConnectionParams.ssl :=
                 if dict_in "ssl" secret
                 then match dict_get "ssl" secret with PDict d => PDict d | _ => PNone end
                 else PNone |}, t1)
    | Raise e => (Raise e, t1)
    | OutOfFuel => (OutOfFuel, t1)
    end.
Proof.
  intros Hsecret. unfold _params_from_secret.
  rewrite (bind_Ok _ _ _ _ _ Hsecret). unfold bind at 1, lift at 1, as_mapping.
  unfold bind at 1, lift at 1, RdsMySQLService.default_port.
  destruct (py_int (dict_get_default "port" (PInt 3306) secret)); reflexivity.
Qed.

Lemma params_from_secret_mapping_redshift (secret : Dict) :
  SecretsManagerService.get_secret self secret_name t = (Ok (PDict secret), t1) ->
  params_from_secret self secret_name t =
    match py_int (dict_get_default "port" (PInt 5439) secret) with
    | Ok p =>
        (Ok {| RedshiftConnectionParams.host :=
                 py_or (py_or (dict_get "host" secret) (dict_get "endpoint" secret))
                       (dict_get "hostname" secret);
               RedshiftConnectionParams.port := p;
               RedshiftConnectionParams.database :=
                 py_or (dict_get "dbname" secret) (dict_get "database" secret);
               RedshiftConnectionParams.user :=
                 py_or (dict_get "username" secret) (dict_get "user" secret);
               RedshiftConnectionParams.password := dict_get "password" secret |}, t1)
    | Raise e => (Raise e, t1)
    | OutOfFuel => (OutOfFuel, t1)
    end.
Proof.
  intros Hsecret. unfold params_from_secret.
  rewrite (bind_Ok _ _ _ _ _ Hsecret). unfold bind at 1, lift at 1, as_mapping.
  unfold bind at 1, lift at 1, RedshiftService.default_port.
  destruct (py_int (dict_get_default "port" (PInt 5439) secret)); reflexivity.
Qed.

Lemma connect_enter_secret name' :
  truthy (PStr name') = true ->
  connect_enter self (Some name') host port database user password ssl t =
    (params <- _params_from_secret self name' ;;
     call (EvMySQLConnect (RdsMySQLService.connect_args params))
          (fun t => pymysql_connect self t (RdsMySQLService.connect_args params)))%py t.
Proof. intros H. unfold connect_enter. now rewrite H. Qed.

Lemma connect_psycopg2_enter_secret name' :
  truthy (PStr name') = true ->
  connect_psycopg2_enter self (Some name') host port database user password t =
    (params <- params_from_secret self name' ;;
     call (EvPgConnect (RedshiftService.connect_args params))
          (fun t => psycopg2_connect self t (RedshiftService.connect_args params)))%py t.
Proof. intros H. unfold connect_psycopg2_enter. now rewrite H. Qed.



(** X6: a secret that parses to something other than a JSON object (an
    array, a number, a quoted string) cannot be resolved: the scope fails
    with [AttributeError] after the vault fetch, without calling the
    driver. *)
Theorem non_mapping_secret_is_an_error (secret : PyVal) :
  truthy (PStr secret_name) = true ->
  SecretsManagerService.get_secret self secret_name t = (Ok secret, t1) ->
  (forall d, secret <> PDict d) ->
  forall A (body : Conn -> M A),
    connect self (Some secret_name) host port database user password ssl body t
      = (Raise (AttributeError "object has no attribute 'get'"), t1)
    /\ connect_psycopg2 self (Some secret_name) host port database user password body t
      = (Raise (AttributeError "object has no attribute 'get'"), t1).
Proof.
  intros Hname Hsecret Hnot A body.
  assert (Hmap : as_mapping secret = Raise (AttributeError "object has no attribute 'get'"))
    by (destruct secret; try reflexivity; exfalso; eapply Hnot; reflexivity).
  split.
  - unfold connect. unfold bind at 1.
    rewrite (connect_enter_secret _ Hname). unfold bind at 1.
    unfold _params_from_secret. rewrite (bind_Ok _ _ _ _ _ Hsecret).
    unfold bind at 1, lift at 1. now rewrite Hmap.
  - unfold connect_psycopg2. unfold bind at 1.
    rewrite (connect_psycopg2_enter_secret _ Hname). unfold bind at 1.
    unfold params_from_secret. rewrite (bind_Ok _ _ _ _ _ Hsecret).
    unfold bind at 1, lift at 1. now rewrite Hmap.
Qed.

End FromSecret.



Lemma non_mapping_secret_is_an_error_witness :
  RedshiftService.connect_psycopg2 Mock.world (Some "prod/list") None None None None None
      (fun c => ret c) [] =
    (Raise (AttributeError "object has no attribute 'get'"),
     [EvLog DEBUG "Fetching secret prod/list from region eu-west-1";
      EvGetSecretValue "prod/list"]).
Proof.
  refine (proj2 (non_mapping_secret_is_an_error Mock.world "prod/list"
                   None None None None None None [] _ (PList [PInt 1; PInt 2])
                   eq_refl eq_refl _ _ (fun c => ret c))).
  intros d. discriminate.
Defined.

(** ** Scoped sessions: the other exits *)

Section SessionEdges.
Import RdsMySQLService RedshiftService.
Variable self : World.
Variables (secret_name host : option string) (port : option Z).
Variables (database user password : option string) (ssl : option Dict).
Variable t : Trace.

(** X7: a secret stored as plain text (a non-empty [SecretString] that is
    not JSON) is wrapped under ["secret"], so no field is found in it: the
    driver is called with host, user, password and database all [None] and
    the default port. *)
Theorem plain_text_secret_connects_with_nothing
    (name : string) (resp : SecretResponse) (s : string) :
  let t_call := t ++ [EvLog DEBUG (SecretsManagerService.fetching_message self name)] in
  let t1 := t_call ++ [EvGetSecretValue name] in
  let mysql_args :=
    {| my_host := PNone; my_port := 3306; my_user := PNone; my_password := PNone;
       my_db := PNone; my_connect_timeout := 10; my_ssl := PNone |} in
  let pg_args :=
    {| pg_host := PNone; pg_port := 5439; pg_dbname := PNone; pg_user := PNone;
       pg_password := PNone |} in
  truthy (PStr name) = true ->
  get_secret_value self t_call name = Ok resp ->
  SecretString resp = Some s ->
  s <> "" ->
  json_loads self s = None ->
  connect_enter self (Some name) host port database user password ssl t
    = (pymysql_connect self t1 mysql_args, t1 ++ [EvMySQLConnect mysql_args])
  /\ connect_psycopg2_enter self (Some name) host port database user password t
    = (psycopg2_connect self t1 pg_args, t1 ++ [EvPgConnect pg_args]).
Proof.
  intros t_call t1 mysql_args pg_args Hname Hresp Hs Hne Hjson.
  assert (Hsecret : SecretsManagerService.get_secret self name t
                    = (Ok (PDict [("secret", PStr s)]), t1)).
  { rewrite (get_secret_response self name t resp Hresp), Hs.
    destruct (String.eqb_spec s ""); [contradiction|]. now rewrite Hjson. }
  split.
  - rewrite (connect_enter_secret self host port database user password ssl t name Hname).
    unfold bind at 1.
    now rewrite (params_from_secret_mapping_mysql self name t t1 _ Hsecret).
  - rewrite (connect_psycopg2_enter_secret self host port database user password t name Hname).
    unfold bind at 1.
    now rewrite (params_from_secret_mapping_redshift self name t t1 _ Hsecret).
Qed.

(** X8: when entering the scope fails (validation, vault, port or driver
    error), the error is the outcome of the whole [with] statement: the
    body does not run and [close] is not called, the trace being just what
    the failed entry left. *)
Theorem failed_entry_runs_nothing (e : exn) (t0 : Trace) :
  (connect_enter self secret_name host port database user password ssl t = (Raise e, t0) ->
   forall A (body : Conn -> M A),
     connect self secret_name host port database user password ssl body t = (Raise e, t0))
  /\
  (connect_psycopg2_enter self secret_name host port database user password t
     = (Raise e, t0) ->
   forall A (body : Conn -> M A),
     connect_psycopg2 self secret_name host port database user password body t
     = (Raise e, t0)).
Proof.
  split; intros Henter A body.
  - unfold connect, bind. now rewrite Henter.
  - unfold connect_psycopg2, bind. now rewrite Henter.
Qed.

(** X9: [close] is guarded by [except Exception] only: when it raises
    something that is not an [Exception] ([KeyboardInterrupt],
    [SystemExit]), that is what leaves the [with] statement, in place of
    the body's result or error, and nothing is logged. *)
Theorem close_interrupt_replaces_outcome
    {A} (body : Conn -> M A) (conn : Conn) (t0 t1 : Trace) (r : Res A) (e : exn) :
  body conn t0 = (r, t1) ->
  r <> OutOfFuel ->
  conn_close self t1 conn = Raise e ->
  is_Exception e = false ->
  (connect_enter self secret_name host port database user password ssl t = (Ok conn, t0) ->
   connect self secret_name host port database user password ssl body t
     = (Raise e, t1 ++ [EvClose conn]))
  /\
  (connect_psycopg2_enter self secret_name host port database user password t
     = (Ok conn, t0) ->
   connect_psycopg2 self secret_name host port database user password body t
     = (Raise e, t1 ++ [EvClose conn])).
Proof.
  intros Hbody Hr Hclose He.
  assert (Hexit : forall what,
             try_finally (body conn) (close_quietly self conn what) t0
             = (Raise e, t1 ++ [EvClose conn])).
  { intros what. unfold try_finally. rewrite Hbody.
    destruct r; [| |congruence];
      unfold close_quietly, try_except, call; now rewrite Hclose, He. }
  split; intros Henter.
  - unfold connect. rewrite (bind_Ok _ _ _ _ _ Henter). apply Hexit.
  - unfold connect_psycopg2. rewrite (bind_Ok _ _ _ _ _ Henter). apply Hexit.
Qed.

End SessionEdges.

Lemma plain_text_secret_connects_with_nothing_witness :
  RdsMySQLService.connect_enter Mock.world (Some "legacy/password") None None None None
      None None [] =
    (Ok 2,
     [EvLog DEBUG "Fetching secret legacy/password from region eu-west-1";
      EvGetSecretValue "legacy/password";
      EvMySQLConnect {| my_host := PNone; my_port := 3306; my_user := PNone;
                        my_password := PNone; my_db := PNone;
                        my_connect_timeout := 10; my_ssl := PNone |}]).
Proof.
  refine (proj1 (plain_text_secret_connects_with_nothing Mock.world None None None None
                   None None [] "legacy/password"
                   {| SecretString := Some "hunter2"; SecretBinary := None |} "hunter2"
                   eq_refl eq_refl eq_refl _ eq_refl)).
  discriminate.
Defined.

Lemma failed_entry_runs_nothing_witness :
  RdsMySQLService.connect (Scenario.settles "FINISHED" None) None (Some "db.internal")
      None None (Some "app") None None (fun c => ret c) [] =
    (Raise (DriverError "Can't connect to MySQL server"),
     [EvMySQLConnect {| my_host := PStr "db.internal"; my_port := 3306;
                        my_user := PStr "app"; my_password := PNone; my_db := PNone;
                        my_connect_timeout := 10; my_ssl := PNone |}]).
Proof.
  exact (proj1 (failed_entry_runs_nothing (Scenario.settles "FINISHED" None) None
                  (Some "db.internal") None None (Some "app") None None [] _ _)
               eq_refl _ (fun c => ret c)).
Defined.

Lemma close_interrupt_replaces_outcome_witness :
  RedshiftService.connect_psycopg2 (Scenario.settles "FINISHED" None) None
      (Some "wh.internal") None None (Some "analyst") None (fun c => ret c) [] =
    (Raise KeyboardInterrupt,
     [EvPgConnect {| pg_host := PStr "wh.internal"; pg_port := 5439; pg_dbname := PNone;
                     pg_user := PStr "analyst"; pg_password := PNone |};
      EvClose 0]).
Proof.
  refine (proj2 (close_interrupt_replaces_outcome (Scenario.settles "FINISHED" None) None
                   (Some "wh.internal") None None (Some "analyst") None None []
                   (fun c => ret c) 0%nat _ _ (Ok 0%nat) KeyboardInterrupt
                   eq_refl _ eq_refl eq_refl) eq_refl).
  discriminate.
Defined.

(** ** The Data API protocol, phase by phase *)

Lemma poll_trace_snoc statement_id poll_interval j :
  poll_trace statement_id poll_interval (S j)
  = poll_trace statement_id poll_interval j
    ++ [EvDescribeStatement statement_id; EvSleep poll_interval].
Proof. induction j as [|j IH]; [reflexivity|]. simpl in *. now rewrite IH. Qed.

Section Protocol.
Import RedshiftService.
Variable self : World.
Variables (sql database : string).
Variables (cluster_identifier workgroup_name db_user secret_arn : option string).
Variables (poll_interval timeout : float).

Let kwargs : Dict :=
  statement_kwargs sql database cluster_identifier workgroup_name db_user secret_arn.

(** One poll that finds the statement still running. *)
Lemma wait_loop_pending_round statement_id fuel waited t describe :
  PrimFloat.ltb waited timeout = true ->
  describe_statement self t statement_id = Ok describe ->
  is_terminal (Status describe) = false ->
  wait_loop (S fuel) self statement_id poll_interval timeout waited t
  = (sleep self poll_interval ;;
     wait_loop fuel self statement_id poll_interval timeout (waited + poll_interval)%float)%py
      (t ++ [EvDescribeStatement statement_id]).
Proof.
  intros Hlt Hdescribe Hstatus.
  rewrite wait_loop_S, Hlt.
  unfold is_terminal in Hstatus.
  apply orb_false_elim in Hstatus. destruct Hstatus as [Hstatus Htimed_out].
  apply orb_false_elim in Hstatus. destruct Hstatus as [Hstatus Hfailed].
  apply orb_false_elim in Hstatus. destruct Hstatus as [Hfinished Haborted].
  unfold bind at 1. unfold call at 1. rewrite Hdescribe. cbv beta iota zeta.
  now rewrite Hfinished, Haborted, Hfailed, Htimed_out.
Qed.

(** [n] polls in a row that find the statement still running. *)
Lemma wait_loop_pending statement_id t0 n :
  forall j fuel,
    sleeps_return self poll_interval ->
    (forall i, j <= i < j + n ->
               PrimFloat.ltb (waited_after poll_interval i) timeout = true) ->
    (forall i, j <= i < j + n ->
       exists describe,
         describe_statement self (t0 ++ poll_trace statement_id poll_interval i)
                            statement_id = Ok describe
         /\ is_terminal (Status describe) = false) ->
    wait_loop (n + fuel) self statement_id poll_interval timeout
              (waited_after poll_interval j)
              (t0 ++ poll_trace statement_id poll_interval j)
    = wait_loop fuel self statement_id poll_interval timeout
                (waited_after poll_interval (j + n))
                (t0 ++ poll_trace statement_id poll_interval (j + n)).
Proof.
  induction n as [|n IH]; intros j fuel Hsleep Hopen Hpending.
  - now rewrite Nat.add_0_r.
  - destruct (Hpending j ltac:(lia)) as (describe & Hdescribe & Hstatus).
    change (S n + fuel) with (S (n + fuel)).
    rewrite (wait_loop_pending_round _ _ _ _ _ (Hopen j ltac:(lia)) Hdescribe Hstatus).
    unfold bind, sleep, call. rewrite Hsleep.
    rewrite <- !app_assoc. simpl app.
    change (waited_after poll_interval j + poll_interval)%float
      with (waited_after poll_interval (S j)).
    rewrite <- poll_trace_snoc.
    rewrite IH by (auto; intros; first [apply Hopen | apply Hpending]; lia).
    now replace (S j + n) with (j + S n) by lia.
Qed.

Lemma wait_loop_from_start statement_id t0 k fuel :
  sleeps_return self poll_interval ->
  (forall i, i < k -> PrimFloat.ltb (waited_after poll_interval i) timeout = true) ->
  pending_for self statement_id poll_interval t0 k ->
  wait_loop (k + fuel) self statement_id poll_interval timeout 0 t0
  = wait_loop fuel self statement_id poll_interval timeout
              (waited_after poll_interval k)
              (t0 ++ poll_trace statement_id poll_interval k).
Proof.
  intros Hsleep Hopen Hpending.
  pose proof (wait_loop_pending statement_id t0 k 0 fuel Hsleep) as Hloop.
  simpl in Hloop. rewrite app_nil_r in Hloop. apply Hloop.
  - intros i Hi. apply Hopen. lia.
  - intros i Hi. apply Hpending. lia.
Qed.

(** The last poll of a loop: what each kind of answer leads to. *)
Lemma wait_loop_last_poll statement_id fuel waited t :
  PrimFloat.ltb waited timeout = true ->
  wait_loop (S fuel) self statement_id poll_interval timeout waited t
  = match describe_statement self t statement_id with
    | Ok describe =>
        if opt_eqb (Status describe) "FINISHED" then
          (Ok tt, t ++ [EvDescribeStatement statement_id])
        else if (opt_eqb (Status describe) "ABORTED" || opt_eqb (Status describe) "FAILED"
                 || opt_eqb (Status describe) "TIMED_OUT")%bool then
          (Raise (RuntimeError ("Redshift Data API statement " ++ statement_id
                                ++ " failed with status " ++ str_of_opt (Status describe)
                                ++ ": " ++ str_of_opt (Error describe))%string),
           t ++ [EvDescribeStatement statement_id])
        else
          (sleep self poll_interval ;;
           wait_loop fuel self statement_id poll_interval timeout
                     (waited + poll_interval)%float)%py
            (t ++ [EvDescribeStatement statement_id])
    | Raise e => (Raise e, t ++ [EvDescribeStatement statement_id])
    | OutOfFuel => (OutOfFuel, t ++ [EvDescribeStatement statement_id])
    end.
Proof.
  intros Hlt. rewrite wait_loop_S, Hlt.
  unfold bind at 1. unfold call at 1.
  destruct (describe_statement self t statement_id) as [describe| |]; try reflexivity.
  cbv beta iota zeta.
  destruct (opt_eqb (Status describe) "FINISHED"); [reflexivity|].
  match goal with |- (if ?c then _ else _) _ = _ => destruct c end; reflexivity.
Qed.

(** The fetch phase. *)
Lemma fetch_phase statement_id t_fetch :
  (result <-
     try_except
       (call (EvGetStatementResult statement_id)
             (fun t => get_statement_result self t statement_id))
       is_ClientError
       (fun e => log ERROR "Failed to fetch statement results" ;; raise e) ;;
   lift (decode_result result))%py t_fetch
  = fetch_outcome self statement_id t_fetch.
Proof.
  unfold fetch_outcome, bind, try_except, call, lift.
  destruct (get_statement_result self t_fetch statement_id) as [result|e|]; try reflexivity.
  destruct (is_ClientError e); unfold log, emit, raise; simpl;
    now rewrite ?app_assoc_cons.
Qed.

(** After a successful submission. *)
Lemma after_submission fuel wait t resp statement_id :
  truthy (py_or (opt_str cluster_identifier) (opt_str workgroup_name)) = true ->
  execute_statement self t kwargs = Ok resp ->
  Id resp = Some statement_id ->
  execute_query_data_api fuel self sql database cluster_identifier workgroup_name
      db_user secret_arn wait poll_interval timeout t
  = if wait then
      match wait_loop fuel self statement_id poll_interval timeout 0
                      (t ++ [EvExecuteStatement kwargs]) with
      | (Ok _, t_fetch) => fetch_outcome self statement_id t_fetch
      | (Raise e, t') => (Raise e, t')
      | (OutOfFuel, t') => (OutOfFuel, t')
      end
    else (Ok [], t ++ [EvExecuteStatement kwargs]).
Proof.
  intros Htarget Hsubmit Hid.
  unfold execute_query_data_api. rewrite Htarget.
  cbv beta iota delta [negb]. fold kwargs.
  unfold bind at 1. unfold try_except at 1. unfold bind at 1. unfold call at 1.
  rewrite Hsubmit. cbv beta iota. rewrite Hid. unfold ret at 1. cbv beta iota.
  destruct wait; [|reflexivity].
  unfold bind at 1.
  destruct (wait_loop fuel self statement_id poll_interval timeout 0
                      (t ++ [EvExecuteStatement kwargs])) as [[[]|e|] t']; try reflexivity.
  apply fetch_phase.
Qed.

End Protocol.

Section ProtocolOutcomes.
Import RedshiftService.
Variable self : World.
Variables (sql database : string).
Variables (cluster_identifier workgroup_name db_user secret_arn : option string).
Variables (poll_interval timeout : float).
Variable t : Trace.

Let kwargs : Dict :=
  statement_kwargs sql database cluster_identifier workgroup_name db_user secret_arn.

(** The history at which polling starts. *)
Let t0 : Trace := t ++ [EvExecuteStatement kwargs].

Let run (fuel : nat) (wait : bool) : Res (list Dict) * Trace :=
  execute_query_data_api fuel self sql database cluster_identifier workgroup_name
    db_user secret_arn wait poll_interval timeout t.

(** X10: a statement found [FINISHED] at its poll number [k+1], after
    [k] polls that found it running, each followed by a sleep of
    [poll_interval] that returns: there is no sleep after the last poll, the result is
    fetched once, and the outcome of the call is that of the fetch. *)
Theorem finished_statement_is_fetched
    (fuel k : nat) (resp : ExecuteResponse) (statement_id : string)
    (describe : DescribeResponse) :
  truthy (py_or (opt_str cluster_identifier) (opt_str workgroup_name)) = true ->
  execute_statement self t kwargs = Ok resp ->
  Id resp = Some statement_id ->
  sleeps_return self poll_interval ->
  budget_open poll_interval timeout k ->
  pending_for self statement_id poll_interval t0 k ->
  describe_statement self (t0 ++ poll_trace statement_id poll_interval k) statement_id
    = Ok describe ->
  Status describe = Some "FINISHED" ->
  k < fuel ->
  run fuel true
  = fetch_outcome self statement_id
      (t0 ++ poll_trace statement_id poll_interval k ++ [EvDescribeStatement statement_id]).
Proof.
  intros Htarget Hsubmit Hid Hsleep Hopen Hpending Hdescribe Hstatus Hfuel.
  subst run. cbv beta.
  rewrite (after_submission self sql database cluster_identifier workgroup_name db_user
             secret_arn poll_interval timeout fuel true t resp statement_id
             Htarget Hsubmit Hid).
  fold kwargs. fold t0.
  replace fuel with (k + S (fuel - S k)) by lia.
  rewrite (wait_loop_from_start self poll_interval timeout statement_id t0 k)
    by (auto; intros; first [apply Hopen | apply Hpending]; lia).
  rewrite wait_loop_last_poll by (apply Hopen; lia).
  rewrite Hdescribe, Hstatus. simpl opt_eqb. cbv iota.
  now rewrite <- app_assoc.
Qed.

(** X11: a statement that the backend reports [ABORTED], [FAILED] or
    [TIMED_OUT] at its poll number [k+1] (the sleeps before it having
    returned) makes the call raise
    [RuntimeError] with the statement id, the status and the backend's
    error text in its message; the result is not fetched and there is no
    sleep after that poll. *)
Theorem failed_statement_raises
    (fuel k : nat) (resp : ExecuteResponse) (statement_id status : string)
    (describe : DescribeResponse) :
  truthy (py_or (opt_str cluster_identifier) (opt_str workgroup_name)) = true ->
  execute_statement self t kwargs = Ok resp ->
  Id resp = Some statement_id ->
  sleeps_return self poll_interval ->
  budget_open poll_interval timeout k ->
  pending_for self statement_id poll_interval t0 k ->
  describe_statement self (t0 ++ poll_trace statement_id poll_interval k) statement_id
    = Ok describe ->
  Status describe = Some status ->
  In status ["ABORTED"; "FAILED"; "TIMED_OUT"] ->
  k < fuel ->
  run fuel true
  = (Raise (RuntimeError ("Redshift Data API statement " ++ statement_id
                          ++ " failed with status " ++ status ++ ": "
                          ++ str_of_opt (Error describe))%string),
     t0 ++ poll_trace statement_id poll_interval k ++ [EvDescribeStatement statement_id]).
Proof.
  intros Htarget Hsubmit Hid Hsleep Hopen Hpending Hdescribe Hstatus Hin Hfuel.
  subst run. cbv beta.
  rewrite (after_submission self sql database cluster_identifier workgroup_name db_user
             secret_arn poll_interval timeout fuel true t resp statement_id
             Htarget Hsubmit Hid).
  fold kwargs. fold t0.
  replace fuel with (k + S (fuel - S k)) by lia.
  rewrite (wait_loop_from_start self poll_interval timeout statement_id t0 k)
    by (auto; intros; first [apply Hopen | apply Hpending]; lia).
  rewrite wait_loop_last_poll by (apply Hopen; lia).
  rewrite Hdescribe, Hstatus.
  destruct Hin as [<-|[<-|[<-|[]]]]; simpl opt_eqb; cbv iota; simpl str_of_opt;
    now rewrite <- app_assoc.
Qed.

(** X12: an error of [describe_statement] itself (the sleeps before it
    having returned) ends the call with that error; unlike the errors of submission and fetch it is not logged, even
    when it is a [ClientError], and the result is not fetched. *)
Theorem describe_error_propagates
    (fuel k : nat) (resp : ExecuteResponse) (statement_id : string) (e : exn) :
  truthy (py_or (opt_str cluster_identifier) (opt_str workgroup_name)) = true ->
  execute_statement self t kwargs = Ok resp ->
  Id resp = Some statement_id ->
  sleeps_return self poll_interval ->
  budget_open poll_interval timeout k ->
  pending_for self statement_id poll_interval t0 k ->
  describe_statement self (t0 ++ poll_trace statement_id poll_interval k) statement_id
    = Raise e ->
  k < fuel ->
  run fuel true
  = (Raise e,
     t0 ++ poll_trace statement_id poll_interval k ++ [EvDescribeStatement statement_id]).
Proof.
  intros Htarget Hsubmit Hid Hsleep Hopen Hpending Hdescribe Hfuel.
  subst run. cbv beta.
  rewrite (after_submission self sql database cluster_identifier workgroup_name db_user
             secret_arn poll_interval timeout fuel true t resp statement_id
             Htarget Hsubmit Hid).
  fold kwargs. fold t0.
  replace fuel with (k + S (fuel - S k)) by lia.
  rewrite (wait_loop_from_start self poll_interval timeout statement_id t0 k)
    by (auto; intros; first [apply Hopen | apply Hpending]; lia).
  rewrite wait_loop_last_poll by (apply Hopen; lia).
  rewrite Hdescribe. now rewrite <- app_assoc.
Qed.

(** X13: when [0 < timeout] is false (a zero, negative or NaN timeout) the
    status is never asked for: the result is fetched right after the
    submission, whatever state the statement is in. *)
Theorem no_budget_fetches_at_once
    (fuel : nat) (resp : ExecuteResponse) (statement_id : string) :
  truthy (py_or (opt_str cluster_identifier) (opt_str workgroup_name)) = true ->
  execute_statement self t kwargs = Ok resp ->
  Id resp = Some statement_id ->
  PrimFloat.ltb 0 timeout = false ->
  run fuel true = fetch_outcome self statement_id t0.
Proof.
  intros Htarget Hsubmit Hid Hbudget.
  subst run. cbv beta.
  rewrite (after_submission self sql database cluster_identifier workgroup_name db_user
             secret_arn poll_interval timeout fuel true t resp statement_id
             Htarget Hsubmit Hid).
  fold kwargs. fold t0.
  destruct fuel; simpl wait_loop; now rewrite Hbudget.
Qed.

(** X14: with [wait=False] the call returns the empty list as soon as the
    statement is submitted: no status is asked for and no result fetched,
    whatever the poll interval and the timeout. *)
Theorem fire_and_forget
    (fuel : nat) (resp : ExecuteResponse) (statement_id : string) :
  truthy (py_or (opt_str cluster_identifier) (opt_str workgroup_name)) = true ->
  execute_statement self t kwargs = Ok resp ->
  Id resp = Some statement_id ->
  run fuel false = (Ok [], t0)
  /\ polls_so_far (snd (run fuel false)) = polls_so_far t.
Proof.
  intros Htarget Hsubmit Hid.
  assert (Hrun : run fuel false = (Ok [], t0)).
  { subst run. cbv beta.
    now rewrite (after_submission self sql database cluster_identifier workgroup_name
                   db_user secret_arn poll_interval timeout fuel false t resp
                   statement_id Htarget Hsubmit Hid). }
  split; [exact Hrun|]. rewrite Hrun. subst t0. simpl snd.
  unfold polls_so_far. rewrite filter_app. simpl. now rewrite app_nil_r.
Qed.

(** X15: a failed submission ends the call before any poll, with or
    without [wait]: an error of [execute_statement] is raised again as it
    is, logged when it is a [ClientError]; a response without [Id] is a
    [KeyError], which is not logged. *)
Theorem failed_submission_stops_the_call (fuel : nat) (wait : bool) :
  truthy (py_or (opt_str cluster_identifier) (opt_str workgroup_name)) = true ->
  (forall e, execute_statement self t kwargs = Raise e ->
     run fuel wait
     = (Raise e,
        t0 ++ (if is_ClientError e
               then [EvLog ERROR "Failed to execute statement via Redshift Data API"]
               else [])))
  /\ (forall resp, execute_statement self t kwargs = Ok resp -> Id resp = None ->
        run fuel wait = (Raise (KeyError "Id"), t0)).
Proof.
  intros Htarget. split.
  - intros e Hsubmit. subst run. cbv beta.
    unfold execute_query_data_api. rewrite Htarget.
    cbv beta iota delta [negb]. fold kwargs.
    unfold bind at 1. unfold try_except at 1. unfold bind at 1. unfold call at 1.
    rewrite Hsubmit. cbv beta iota.
    destruct (is_ClientError e).
    + unfold bind, log, emit, raise. subst t0. now rewrite <- app_assoc.
    + subst t0. now rewrite app_nil_r.
  - intros resp Hsubmit Hid. subst run. cbv beta.
    unfold execute_query_data_api. rewrite Htarget.
    cbv beta iota delta [negb]. fold kwargs.
    unfold bind at 1. unfold try_except at 1. unfold bind at 1. unfold call at 1.
    rewrite Hsubmit. cbv beta iota. rewrite Hid. reflexivity.
Qed.

(** X16: [poll_interval] is not checked at entry: the statement is
    submitted and polled once, and if it is still running, an error of the
    first [time.sleep(poll_interval)] (the [ValueError] of a negative
    length, an interrupt) ends the call with that error; it is not logged
    and the result is not fetched. *)
Theorem sleep_error_ends_the_call
    (fuel : nat) (resp : ExecuteResponse) (statement_id : string)
    (describe : DescribeResponse) (e : exn) :
  truthy (py_or (opt_str cluster_identifier) (opt_str workgroup_name)) = true ->
  execute_statement self t kwargs = Ok resp ->
  Id resp = Some statement_id ->
  PrimFloat.ltb 0 timeout = true ->
  describe_statement self t0 statement_id = Ok describe ->
  is_terminal (Status describe) = false ->
  time_sleep self (t0 ++ [EvDescribeStatement statement_id]) poll_interval = Raise e ->
  0 < fuel ->
  run fuel true
  = (Raise e, t0 ++ [EvDescribeStatement statement_id; EvSleep poll_interval]).
Proof.
  intros Htarget Hsubmit Hid Hbudget Hdescribe Hstatus Hsleep Hfuel.
  subst run. cbv beta.
  rewrite (after_submission self sql database cluster_identifier workgroup_name db_user
             secret_arn poll_interval timeout fuel true t resp statement_id
             Htarget Hsubmit Hid).
  fold kwargs. fold t0.
  destruct fuel as [|fuel]; [lia|].
  rewrite (wait_loop_pending_round self poll_interval timeout statement_id fuel 0 t0
             describe Hbudget Hdescribe Hstatus).
  unfold bind, sleep, call. rewrite Hsleep. now rewrite app_assoc_cons.
Qed.

End ProtocolOutcomes.

Lemma finished_statement_is_fetched_witness :
  RedshiftService.execute_query_data_api 5 (Scenario.settles "FINISHED" None)
      "SELECT 1" "dev" None (Some "wg-1") None None true 0.1 0.5 [] =
    (Ok [[("a", PStr "x"); ("b", PNone)]],
     [EvExecuteStatement [("Sql", PStr "SELECT 1"); ("Database", PStr "dev");
                          ("WorkgroupName", PStr "wg-1")];
      EvDescribeStatement "stmt-7"; EvSleep 0.1;
      EvDescribeStatement "stmt-7"; EvSleep 0.1;
      EvDescribeStatement "stmt-7";
      EvGetStatementResult "stmt-7"]).
Proof.
  refine (finished_statement_is_fetched (Scenario.settles "FINISHED" None)
            "SELECT 1" "dev" None (Some "wg-1") None None 0.1%float 0.5%float [] 5 2
            {| Id := Some "stmt-7" |} "stmt-7"
            {| Status := Some "FINISHED"; Error := None |}
            eq_refl eq_refl eq_refl (fun _ => eq_refl) _ _ eq_refl eq_refl _).
  - intros j Hj. destruct j as [|[|[|j]]]; [reflexivity..|lia].
  - intros j Hj. destruct j as [|[|j]]; [eexists; split; reflexivity..|lia].
  - lia.
Defined.

Lemma failed_statement_raises_witness :
  RedshiftService.execute_query_data_api 5
      (Scenario.settles "FAILED" (Some "syntax error at or near SELEC"))
      "SELEC 1" "dev" None (Some "wg-1") None None true 0.1 0.5 [] =
    (Raise (RuntimeError
              "Redshift Data API statement stmt-7 failed with status FAILED: syntax error at or near SELEC"),
     [EvExecuteStatement [("Sql", PStr "SELEC 1"); ("Database", PStr "dev");
                          ("WorkgroupName", PStr "wg-1")];
      EvDescribeStatement "stmt-7"; EvSleep 0.1;
      EvDescribeStatement "stmt-7"; EvSleep 0.1;
      EvDescribeStatement "stmt-7"]).
Proof.
  refine (failed_statement_raises
            (Scenario.settles "FAILED" (Some "syntax error at or near SELEC"))
            "SELEC 1" "dev" None (Some "wg-1") None None 0.1%float 0.5%float [] 5 2
            {| Id := Some "stmt-7" |} "stmt-7" "FAILED"
            {| Status := Some "FAILED"; Error := Some "syntax error at or near SELEC" |}
            eq_refl eq_refl eq_refl (fun _ => eq_refl) _ _ eq_refl eq_refl _ _).
  - intros j Hj. destruct j as [|[|[|j]]]; [reflexivity..|lia].
  - intros j Hj. destruct j as [|[|j]]; [eexists; split; reflexivity..|lia].
  - simpl. tauto.
  - lia.
Defined.

Lemma describe_error_propagates_witness :
  RedshiftService.execute_query_data_api 5 Scenario.throttled
      "SELECT 1" "dev" (Some "cluster-1") None None None true 0.1 0.5 [] =
    (Raise (ClientError "ThrottlingException"),
     [EvExecuteStatement [("Sql", PStr "SELECT 1"); ("Database", PStr "dev");
                          ("ClusterIdentifier", PStr "cluster-1")];
      EvDescribeStatement "stmt-9"]).
Proof.
  refine (describe_error_propagates Scenario.throttled
            "SELECT 1" "dev" (Some "cluster-1") None None None 0.1%float 0.5%float [] 5 0
            {| Id := Some "stmt-9" |} "stmt-9" (ClientError "ThrottlingException")
            eq_refl eq_refl eq_refl (fun _ => eq_refl) _ _ eq_refl _).
  - intros j Hj. destruct j as [|j]; [reflexivity|lia].
  - intros j Hj. lia.
  - lia.
Defined.

Lemma no_budget_fetches_at_once_witness :
  RedshiftService.execute_query_data_api 0 Mock.world
      "SELECT 1" "dev" (Some "cluster-1") None None None true 0.1 0 [] =
    (Ok [[("a", PStr "x"); ("b", PNone)]],
     [EvExecuteStatement [("Sql", PStr "SELECT 1"); ("Database", PStr "dev");
                          ("ClusterIdentifier", PStr "cluster-1")];
      EvGetStatementResult "stmt-1"]).
Proof.
  exact (no_budget_fetches_at_once Mock.world
           "SELECT 1" "dev" (Some "cluster-1") None None None 0.1%float 0%float [] 0
           {| Id := Some "stmt-1" |} "stmt-1" eq_refl eq_refl eq_refl eq_refl).
Defined.

Lemma fire_and_forget_witness :
  RedshiftService.execute_query_data_api 0 Mock.world
      "VACUUM" "dev" (Some "cluster-1") None (Some "awsuser") None false 0.1 0.5 [] =
    (Ok [],
     [EvExecuteStatement [("Sql", PStr "VACUUM"); ("Database", PStr "dev");
                          ("ClusterIdentifier", PStr "cluster-1");
                          ("DbUser", PStr "awsuser")]]).
Proof.
  exact (proj1 (fire_and_forget Mock.world
                  "VACUUM" "dev" (Some "cluster-1") None (Some "awsuser") None
                  0.1%float 0.5%float [] 0
                  {| Id := Some "stmt-1" |} "stmt-1" eq_refl eq_refl eq_refl)).
Defined.

Lemma failed_submission_stops_the_call_witness :
  RedshiftService.execute_query_data_api 5 Scenario.refuses
      "SELECT 1" "dev" (Some "cluster-1") None None None true 0.1 0.5 [] =
    (Raise (ClientError "ValidationException"),
     [EvExecuteStatement [("Sql", PStr "SELECT 1"); ("Database", PStr "dev");
                          ("ClusterIdentifier", PStr "cluster-1")];
      EvLog ERROR "Failed to execute statement via Redshift Data API"]).
Proof.
  exact (proj1 (failed_submission_stops_the_call Scenario.refuses
                  "SELECT 1" "dev" (Some "cluster-1") None None None
                  0.1%float 0.5%float [] 5 true eq_refl)
               (ClientError "ValidationException") eq_refl).
Defined.

Lemma sleep_error_ends_the_call_witness :
  RedshiftService.execute_query_data_api 5 Mock.world
      "SELECT 1" "dev" (Some "cluster-1") None None None true (-0.1) 0.5 [] =
    (Raise (ValueError "sleep length must be non-negative"),
     [EvExecuteStatement [("Sql", PStr "SELECT 1"); ("Database", PStr "dev");
                          ("ClusterIdentifier", PStr "cluster-1")];
      EvDescribeStatement "stmt-1"; EvSleep (-0.1)]).
Proof.
  refine (sleep_error_ends_the_call Mock.world
            "SELECT 1" "dev" (Some "cluster-1") None None None (-0.1)%float 0.5%float [] 5
            {| Id := Some "stmt-1" |} "stmt-1"
            {| Status := Some "STARTED"; Error := None |}
            (ValueError "sleep length must be non-negative")
            eq_refl eq_refl eq_refl eq_refl eq_refl eq_refl eq_refl _).
  lia.
Defined.

(** ** The request of a statement *)

(** X17: the request always carries [Sql] and [Database], followed by
    [ClusterIdentifier], [WorkgroupName], [DbUser] and [SecretArn] in that
    order, each present exactly when its argument is given and not empty;
    no entry overwrites another. *)
Theorem request_arguments
    (sql database : string)
    (cluster_identifier workgroup_name db_user secret_arn : option string) :
  RedshiftService.statement_kwargs sql database cluster_identifier workgroup_name
    db_user secret_arn
  = [("Sql", PStr sql); ("Database", PStr database)]
    ++ optional_entry "ClusterIdentifier" cluster_identifier
    ++ optional_entry "WorkgroupName" workgroup_name
    ++ optional_entry "DbUser" db_user
    ++ optional_entry "SecretArn" secret_arn.
Proof.
  unfold RedshiftService.statement_kwargs, RedshiftService.set_if_truthy, optional_entry.
  destruct (truthy (opt_str cluster_identifier)),
           (truthy (opt_str workgroup_name)),
           (truthy (opt_str db_user)),
           (truthy (opt_str secret_arn)); reflexivity.
Qed.

(** ** Decoding a result page *)

Lemma dict_lookup_In k d v : dict_lookup k d = Some v -> In (k, v) d.
Proof.
  induction d as [|[k' v'] d IH]; simpl; [discriminate|].
  destruct (String.eqb_spec k k') as [->|_].
  - intros [= ->]. now left.
  - intros H. right. auto.
Qed.

Lemma dict_get_In k d : dict_in k d = true -> In (k, dict_get k d) d.
Proof.
  intros H. apply dict_in_lookup in H. destruct H as [v Hv].
  rewrite (dict_get_lookup _ _ _ Hv). now apply dict_lookup_In.
Qed.

(** X18: a cell that is a dict never fails to decode, and what it decodes
    to is null or one of the values it holds; a cell that is truthy but not
    a dict (a bare string, a number, a list) fails with [AttributeError]. *)
Theorem decode_cell_on_dicts_and_others :
  (forall d : Dict,
      exists v, RedshiftService.decode_cell (PDict d) = Ok v
                /\ (v = PNone \/ exists k, In (k, v) d))
  /\ (forall item, truthy item = true -> (forall d, item <> PDict d) ->
        RedshiftService.decode_cell item
        = Raise (AttributeError "object has no attribute 'keys'")).
Proof.
  split.
  - intros d. unfold RedshiftService.decode_cell.
    destruct d as [|[k0 v0] d']; [exists PNone; simpl; auto|].
    set (d := (k0, v0) :: d'). simpl truthy. simpl negb. cbv iota.
    destruct (dict_in "stringValue" d) eqn:E1;
      [eexists; split; [reflexivity|right; eexists; apply dict_get_In, E1]|].
    destruct (dict_in "longValue" d) eqn:E2;
      [eexists; split; [reflexivity|right; eexists; apply dict_get_In, E2]|].
    destruct (dict_in "doubleValue" d) eqn:E3;
      [eexists; split; [reflexivity|right; eexists; apply dict_get_In, E3]|].
    destruct (dict_in "booleanValue" d) eqn:E4;
      [eexists; split; [reflexivity|right; eexists; apply dict_get_In, E4]|].
    destruct (dict_in "isNull" d && truthy (dict_get "isNull" d))%bool;
      [exists PNone; auto|].
    exists (dict_get k0 d). split; [reflexivity|]. right. exists k0.
    apply dict_get_In. subst d. simpl. now rewrite String.eqb_refl.
  - intros item Htruthy Hnot. unfold RedshiftService.decode_cell. rewrite Htruthy.
    destruct item; try reflexivity. exfalso. eapply Hnot. reflexivity.
Qed.

Lemma decode_cell_on_dicts_and_others_witness :
  RedshiftService.decode_cell (PStr "x")
  = Raise (AttributeError "object has no attribute 'keys'").
Proof.
  apply (proj2 decode_cell_on_dicts_and_others); [reflexivity|].
  intros d. discriminate.
Defined.

Lemma dict_set_fresh k v d :
  dict_lookup k d = None -> dict_set k v d = d ++ [(k, v)].
Proof.
  induction d as [|[k' v'] d IH]; simpl; [reflexivity|].
  destruct (String.eqb k k'); [discriminate|].
  intros H. now rewrite IH.
Qed.

Lemma dict_lookup_app_None k d1 d2 :
  dict_lookup k d1 = None -> dict_lookup k (d1 ++ d2) = dict_lookup k d2.
Proof.
  induction d1 as [|[k' v'] d1 IH]; simpl; [reflexivity|].
  destruct (String.eqb k k'); [discriminate | exact IH].
Qed.

Lemma dict_lookup_not_In k d : ~ In k (map fst d) -> dict_lookup k d = None.
Proof.
  induction d as [|[k' v'] d IH]; simpl; [reflexivity|].
  intros H. destruct (String.eqb_spec k k') as [->|_]; [tauto|]. apply IH. tauto.
Qed.

Lemma map_fst_dict_set k v d :
  map fst (dict_set k v d) = if dict_in k d then map fst d else map fst d ++ [k].
Proof.
  induction d as [|[k' v'] d IH]; simpl; [reflexivity|].
  destruct (String.eqb k k'); simpl; [reflexivity|].
  rewrite IH. now destruct (dict_in k d).
Qed.

Lemma dict_in_In k d : dict_in k d = true <-> In k (map fst d).
Proof.
  induction d as [|[k' v'] d IH]; simpl; [split; [discriminate|tauto]|].
  destruct (String.eqb_spec k k') as [->|Hne]; [tauto|].
  rewrite IH. split; [tauto|]. intros [H|H]; [congruence|exact H].
Qed.

Lemma NoDup_dict_set k v d : NoDup (map fst d) -> NoDup (map fst (dict_set k v d)).
Proof.
  intros Hd. rewrite map_fst_dict_set.
  destruct (dict_in k d) eqn:E; [exact Hd|].
  apply NoDup_app; [exact Hd | repeat constructor; simpl; tauto|].
  intros x Hx [<-|[]]. apply dict_in_In in Hx. congruence.
Qed.

Lemma decode_record_app cells1 cells2 record :
  RedshiftService.decode_record (cells1 ++ cells2) record
  = match RedshiftService.decode_record cells1 record with
    | Ok record' => RedshiftService.decode_record cells2 record'
    | Raise e => Raise e
    | OutOfFuel => OutOfFuel
    end.
Proof.
  revert record. induction cells1 as [|[col item] cells1 IH]; intros record; simpl;
    [reflexivity|].
  destruct (RedshiftService.decode_cell item); auto.
Qed.

Section DecodeRows.
Import RedshiftService.

Lemma decode_record_distinct columns :
  forall (r values : list PyVal) (record : Dict),
    NoDup columns ->
    (forall c, In c columns -> dict_lookup c record = None) ->
    Forall2 (fun item v => decode_cell item = Ok v) (firstn (List.length columns) r) values ->
    decode_record (combine columns r) record = Ok (record ++ combine columns values).
Proof.
  induction columns as [|c columns IH]; intros r values record Hnodup Hfresh Hvalues.
  - simpl. now rewrite app_nil_r.
  - destruct r as [|item r]; simpl in Hvalues.
    + inversion Hvalues; subst. simpl. now rewrite app_nil_r.
    + inversion Hvalues as [|? v ? values' Hitem Hrest]; subst. simpl.
      rewrite Hitem. inversion Hnodup as [|? ? Hnotin Hnodup']; subst.
      rewrite dict_set_fresh by (apply Hfresh; now left).
      rewrite (IH r values'); auto.
      * now rewrite <- app_assoc.
      * intros c' Hc'. rewrite dict_lookup_app_None by (apply Hfresh; now right).
        simpl. destruct (String.eqb_spec c' c) as [->|_]; [contradiction|reflexivity].
Qed.

(** X19: when the column names are distinct, a record decodes to the row
    that pairs the columns, in the query's column order, with the decoded
    cells; a record shorter than the column list gives a row that has only
    the leading columns (the others are absent, not null). *)
Theorem row_follows_column_order (columns : list string) (r values : list PyVal) :
  NoDup columns ->
  Forall2 (fun item v => decode_cell item = Ok v) (firstn (List.length columns) r) values ->
  decode_record (combine columns r) [] = Ok (combine columns values)
  /\ map fst (combine columns values) = firstn (List.length r) columns.
Proof.
  intros Hnodup Hvalues. split.
  - now rewrite (decode_record_distinct columns r values []).
  - assert (Hlen : List.length values = Nat.min (List.length columns) (List.length r)).
    { apply Forall2_length in Hvalues. now rewrite length_firstn in Hvalues. }
    clear Hvalues Hnodup. revert r values Hlen.
    induction columns as [|c columns IH]; intros r values Hlen.
    + now rewrite firstn_nil.
    + destruct r as [|item r]; destruct values as [|v values]; simpl in *;
        try discriminate; [reflexivity|].
      f_equal. apply IH. lia.
Qed.


Lemma decode_record_NoDup cells :
  forall record row,
    NoDup (map fst record) ->
    decode_record cells record = Ok row ->
    NoDup (map fst row).
Proof.
  induction cells as [|[col item] cells IH]; intros record row Hnodup Hrow; simpl in Hrow.
  - now injection Hrow as <-.
  - destruct (decode_cell item) as [value| |]; try discriminate.
    eapply IH; [|exact Hrow]. now apply NoDup_dict_set.
Qed.

Lemma decode_record_untouched cells col :
  forall record row,
    decode_record cells record = Ok row ->
    ~ In col (map fst cells) ->
    dict_lookup col row = dict_lookup col record.
Proof.
  induction cells as [|[c item] cells IH]; intros record row Hrow Hnotin; simpl in *.
  - now injection Hrow as <-.
  - destruct (decode_cell item) as [value| |]; try discriminate.
    rewrite (IH _ _ Hrow) by tauto.
    apply dict_lookup_set_other.
    destruct (String.eqb_spec col c) as [->|_]; [tauto | reflexivity].
Qed.

(** X21: a decoded row never holds a column name twice; when the page
    names several columns alike, the row keeps one entry for that name and
    its value is that of the last cell under that name. *)
Theorem duplicate_columns_keep_the_last
    (before after : list (string * PyVal)) (col : string) (item v : PyVal) (row : Dict) :
  decode_record (before ++ (col, item) :: after) [] = Ok row ->
  decode_cell item = Ok v ->
  ~ In col (map fst after) ->
  NoDup (map fst row) /\ dict_lookup col row = Some v.
Proof.
  intros Hrow Hitem Hlast. split.
  - eapply decode_record_NoDup; [|exact Hrow]. constructor.
  - rewrite decode_record_app in Hrow.
    destruct (decode_record before []) as [record| |]; try discriminate.
    simpl in Hrow. rewrite Hitem in Hrow.
    rewrite (decode_record_untouched _ _ _ _ Hrow Hlast).
    apply dict_lookup_set_same.
Qed.

Lemma decode_records_rows columns records :
  forall rows0 rows,
    decode_records columns records rows0 = Ok rows ->
    exists new,
      rows = rows0 ++ new
      /\ Forall2 (fun r row => decode_record (combine columns r) [] = Ok row) records new.
Proof.
  induction records as [|r records IH]; intros rows0 rows Hrows; simpl in Hrows.
  - injection Hrows as <-. exists []. split; [now rewrite app_nil_r | constructor].
  - destruct (decode_record (combine columns r) []) as [record| |] eqn:Hr; try discriminate.
    destruct (IH _ _ Hrows) as (new & -> & Hnew).
    exists (record :: new). split; [now rewrite <- app_assoc|].
    now constructor.
Qed.

(** X22: a page that decodes gives one row per record, in the order of
    the records, each row being the decoding of its record against the
    page's column names. *)
Theorem one_row_per_record (result : StatementResult) (rows : list Dict) :
  decode_result result = Ok rows ->
  exists columns,
    column_names (match ColumnMetadata result with Some m => m | None => [] end)
      = Ok columns
    /\ Forall2 (fun r row => decode_record (combine columns r) [] = Ok row)
               (match Records result with Some rs => rs | None => [] end) rows
    /\ List.length rows = List.length (match Records result with Some rs => rs | None => [] end).
Proof.
  unfold decode_result. intros Hrows.
  destruct (column_names _) as [columns| |]; try discriminate.
  exists columns. split; [reflexivity|].
  destruct (decode_records_rows _ _ _ _ Hrows) as (new & -> & Hnew).
  simpl. split; [exact Hnew|]. symmetry. exact (Forall2_length Hnew).
Qed.

Lemma decode_records_no_columns records :
  forall rows0,
    decode_records [] records rows0 = Ok (rows0 ++ repeat [] (List.length records)).
Proof.
  induction records as [|r records IH]; intros rows0; simpl.
  - now rewrite app_nil_r.
  - rewrite IH. now rewrite <- app_assoc.
Qed.

(** X23: a page without column metadata (absent or empty) decodes every
    record to the empty row, without looking at its cells; a page without
    records decodes to no row. *)
Theorem page_without_columns (result : StatementResult) :
  ColumnMetadata result = None \/ ColumnMetadata result = Some [] ->
  decode_result result
  = Ok (repeat [] (List.length (match Records result with Some rs => rs | None => [] end))).
Proof.
  intros Hmeta. unfold decode_result.
  destruct Hmeta as [-> | ->]; simpl; apply (decode_records_no_columns _ []).
Qed.

(** X24: a column entry without [name] fails the whole fetch with
    [KeyError], before any record is decoded. *)
Theorem unnamed_column_is_a_key_error (result : StatementResult)
    (metadata : list ColumnMeta) :
  ColumnMetadata result = Some metadata ->
  Exists (fun col => name col = None) metadata ->
  decode_result result = Raise (KeyError "name").
Proof.
  intros Hmeta Hunnamed. unfold decode_result. rewrite Hmeta.
  assert (Hnames : column_names metadata = Raise (KeyError "name")).
  { clear Hmeta. induction metadata as [|col metadata IH]; [inversion Hunnamed|].
    simpl. destruct (name col) as [n|] eqn:Hname; [|reflexivity].
    rewrite IH; [reflexivity|].
    inversion Hunnamed; subst; [congruence | assumption]. }
  now rewrite Hnames.
Qed.

Lemma decode_records_failure columns before r after e :
  forall rows0,
    Forall (fun r' => exists row, decode_record (combine columns r') [] = Ok row) before ->
    decode_record (combine columns r) [] = Raise e ->
    decode_records columns (before ++ r :: after) rows0 = Raise e.
Proof.
  induction before as [|r' before IH]; intros rows0 Hbefore Hr; simpl.
  - now rewrite Hr.
  - inversion Hbefore as [|? ? [row Hrow] Hbefore']; subst.
    rewrite Hrow. now apply IH.
Qed.

(** X25: one record that fails to decode fails the whole fetch with the
    error of that record: the rows decoded before it are not returned. *)
Theorem one_bad_record_fails_the_fetch
    (result : StatementResult) (columns : list string)
    (before after : list (list PyVal)) (r : list PyVal) (e : exn) :
  column_names (match ColumnMetadata result with Some m => m | None => [] end)
    = Ok columns ->
  Records result = Some (before ++ r :: after) ->
  Forall (fun r' => exists row, decode_record (combine columns r') [] = Ok row) before ->
  decode_record (combine columns r) [] = Raise e ->
  decode_result result = Raise e.
Proof.
  intros Hcolumns Hrecords Hbefore Hr. unfold decode_result.
  rewrite Hcolumns, Hrecords. now apply decode_records_failure.
Qed.

End DecodeRows.

Lemma row_follows_column_order_witness :
  RedshiftService.decode_record
      (combine ["id"; "name"; "score"]
               [PDict [("longValue", PInt 7)]; PDict [("stringValue", PStr "Ann")]]) []
  = Ok [("id", PInt 7); ("name", PStr "Ann")].
Proof.
  apply (proj1 (row_follows_column_order ["id"; "name"; "score"]
                  [PDict [("longValue", PInt 7)]; PDict [("stringValue", PStr "Ann")]]
                  [PInt 7; PStr "Ann"]
                  ltac:(repeat constructor; simpl; intuition discriminate)
                  ltac:(repeat constructor))).
Defined.


Lemma duplicate_columns_keep_the_last_witness :
  NoDup (map fst [("n", PInt 2); ("m", PInt 3)])
  /\ dict_lookup "n" [("n", PInt 2); ("m", PInt 3)] = Some (PInt 2).
Proof.
  refine (duplicate_columns_keep_the_last
            [("n", PDict [("longValue", PInt 1)])]
            [("m", PDict [("longValue", PInt 3)])]
            "n" (PDict [("longValue", PInt 2)]) (PInt 2)
            [("n", PInt 2); ("m", PInt 3)] eq_refl eq_refl _).
  simpl. intros [H|[]]. discriminate H.
Defined.

Lemma one_row_per_record_witness :
  exists columns,
    RedshiftService.column_names [ {| name := Some "a" |}; {| name := Some "b" |} ]
      = Ok columns
    /\ Forall2 (fun r row =>
                  RedshiftService.decode_record (combine columns r) [] = Ok row)
               [ [PDict [("stringValue", PStr "x")]; PDict [("isNull", PBool true)]] ]
               [ [("a", PStr "x"); ("b", PNone)] ]
    /\ List.length [ [("a", PStr "x"); ("b", PNone)] ] = 1.
Proof.
  exact (one_row_per_record Mock.page [[("a", PStr "x"); ("b", PNone)]] eq_refl).
Defined.

Lemma page_without_columns_witness :
  RedshiftService.decode_result
      {| ColumnMetadata := None; Records := Some [[PStr "not a cell"]; []] |}
  = Ok [[]; []].
Proof.
  exact (page_without_columns
           {| ColumnMetadata := None; Records := Some [[PStr "not a cell"]; []] |}
           (or_introl eq_refl)).
Defined.

Lemma unnamed_column_is_a_key_error_witness :
  RedshiftService.decode_result
      {| ColumnMetadata := Some [ {| name := Some "a" |}; {| name := None |} ];
         Records := Some [] |}
  = Raise (KeyError "name").
Proof.
  apply (unnamed_column_is_a_key_error _ [ {| name := Some "a" |}; {| name := None |} ]);
    [reflexivity|].
  apply Exists_cons_tl, Exists_cons_hd. reflexivity.
Defined.

Lemma one_bad_record_fails_the_fetch_witness :
  RedshiftService.decode_result
      {| ColumnMetadata := Some [ {| name := Some "a" |} ];
         Records := Some [ [PDict [("stringValue", PStr "x")]]; [PStr "oops"] ] |}
  = Raise (AttributeError "object has no attribute 'keys'").
Proof.
  apply (one_bad_record_fails_the_fetch _ ["a"] [ [PDict [("stringValue", PStr "x")]] ]
           [] [PStr "oops"]); try reflexivity.
  repeat constructor. eexists. reflexivity.
Defined.

(** ** Running a query on an open session *)

Section CursorLife.
Import Cursors.
Variable conn : Connection.
Variable query : string.
Variable params : option (list PyVal).
Variable h : History.

(** The two functions, each with the argument it gives to [conn.cursor]. *)
Let runners : list (option string
                    * (Connection -> string -> option (list PyVal)
                       -> Q (option (list Dict)))) :=
  [(None, run_query); (Some "RealDictCursor", run_query_psycopg2)].

Variable factory : option string.
Variable run : Connection -> string -> option (list PyVal) -> Q (option (list Dict)).
Hypothesis Hrunner : In (factory, run) runners.

Variables mgr cur : nat.
Let h1 : History := h ++ [CvCursor factory].
Let h2 : History := h1 ++ [CvEnter mgr].
Let h3 : History := h2 ++ [CvExecute cur query (params_or_empty params)].
Let h4 : History := h3 ++ [CvFetchall cur].

Lemma run_unfold :
  run conn query params h
  = with_return conn
      (qcall (CvCursor factory) (fun h => cursor conn h factory))
      (fun cur =>
         qbind (qcall (CvExecute cur query (params_or_empty params))
                      (fun h => cursor_execute conn h cur query (params_or_empty params)))
               (fun _ => qcall (CvFetchall cur) (fun h => cursor_fetchall conn h cur))) h.
Proof.
  destruct Hrunner as [H|[H|[]]]; injection H as <- <-; reflexivity.
Qed.

(** X26: [run_query] and [run_query_psycopg2] open one cursor, execute
    the statement once with the given parameters ([()] when they are [None]
    or empty), fetch all rows, leave the cursor's scope once, and return the
    rows as fetched. *)
Theorem run_query_returns_fetched_rows (rows : list Dict) (suppress : bool) :
  cursor conn h factory = Ok mgr ->
  cursor_enter conn h1 mgr = Ok cur ->
  cursor_execute conn h2 cur query (params_or_empty params) = Ok tt ->
  cursor_fetchall conn h3 cur = Ok rows ->
  cursor_exit conn h4 mgr None = Ok suppress ->
  run conn query params h = (Ok (Some rows), h4 ++ [CvExit mgr None]).
Proof.
  intros Hcursor Henter Hexecute Hfetch Hexit.
  rewrite run_unfold. unfold with_return, qbind, qcall.
  rewrite Hcursor. fold h1. rewrite Henter. fold h2.
  rewrite Hexecute. fold h3. rewrite Hfetch. fold h4. now rewrite Hexit.
Qed.

(** X27: when [execute] or [fetchall] raises, the cursor's scope is left
    exactly once, being told the error; [fetchall] is not called after a
    failed [execute]; the error then leaves the function, unless the
    cursor's [__exit__] answers true, in which case the function returns
    [None]. *)
Theorem run_query_error_leaves_the_cursor (e : exn) (suppress : bool) :
  cursor conn h factory = Ok mgr ->
  cursor_enter conn h1 mgr = Ok cur ->
  (cursor_execute conn h2 cur query (params_or_empty params) = Raise e ->
   cursor_exit conn h3 mgr (Some e) = Ok suppress ->
   run conn query params h
   = (if suppress then Ok None else Raise e, h3 ++ [CvExit mgr (Some e)]))
  /\
  (cursor_execute conn h2 cur query (params_or_empty params) = Ok tt ->
   cursor_fetchall conn h3 cur = Raise e ->
   cursor_exit conn h4 mgr (Some e) = Ok suppress ->
   run conn query params h
   = (if suppress then Ok None else Raise e, h4 ++ [CvExit mgr (Some e)])).
Proof.
  intros Hcursor Henter. split.
  - intros Hexecute Hexit.
    rewrite run_unfold. unfold with_return, qbind, qcall.
    rewrite Hcursor. fold h1. rewrite Henter. fold h2.
    rewrite Hexecute. fold h3. rewrite Hexit. now destruct suppress.
  - intros Hexecute Hfetch Hexit.
    rewrite run_unfold. unfold with_return, qbind, qcall.
    rewrite Hcursor. fold h1. rewrite Henter. fold h2.
    rewrite Hexecute. fold h3. rewrite Hfetch. fold h4. rewrite Hexit.
    now destruct suppress.
Qed.

(** X28: an error of [__exit__] itself replaces the outcome of the
    function, the fetched rows included. *)
Theorem run_query_exit_error_wins (rows : list Dict) (e : exn) :
  cursor conn h factory = Ok mgr ->
  cursor_enter conn h1 mgr = Ok cur ->
  cursor_execute conn h2 cur query (params_or_empty params) = Ok tt ->
  cursor_fetchall conn h3 cur = Ok rows ->
  cursor_exit conn h4 mgr None = Raise e ->
  run conn query params h = (Raise e, h4 ++ [CvExit mgr None]).
Proof.
  intros Hcursor Henter Hexecute Hfetch Hexit.
  rewrite run_unfold. unfold with_return, qbind, qcall.
  rewrite Hcursor. fold h1. rewrite Henter. fold h2.
  rewrite Hexecute. fold h3. rewrite Hfetch. fold h4. now rewrite Hexit.
Qed.

End CursorLife.

Lemma run_query_returns_fetched_rows_witness :
  Cursors.run_query Scenario.healthy "SELECT 1 AS test;" None [] =
    (Ok (Some [[("test", PInt 1)]]),
     [Cursors.CvCursor None; Cursors.CvEnter 0;
      Cursors.CvExecute 0 "SELECT 1 AS test;" []; Cursors.CvFetchall 0;
      Cursors.CvExit 0 None]).
Proof.
  exact (run_query_returns_fetched_rows Scenario.healthy "SELECT 1 AS test;" None []
           None Cursors.run_query (or_introl eq_refl) 0 0 [[("test", PInt 1)]] false
           eq_refl eq_refl eq_refl eq_refl eq_refl).
Defined.

Lemma run_query_error_leaves_the_cursor_witness :
  Cursors.run_query_psycopg2 Scenario.broken "SELEC 1" (Some [PInt 5]) [] =
    (Raise (DriverError "syntax error"),
     [Cursors.CvCursor (Some "RealDictCursor"); Cursors.CvEnter 0;
      Cursors.CvExecute 0 "SELEC 1" [PInt 5];
      Cursors.CvExit 0 (Some (DriverError "syntax error"))]).
Proof.
  exact (proj1 (run_query_error_leaves_the_cursor Scenario.broken "SELEC 1"
                  (Some [PInt 5]) [] (Some "RealDictCursor") Cursors.run_query_psycopg2
                  (or_intror (or_introl eq_refl)) 0 0 (DriverError "syntax error") false
                  eq_refl eq_refl)
               eq_refl eq_refl).
Defined.

Lemma run_query_exit_error_wins_witness :
  Cursors.run_query Scenario.stuck "SELECT 1 AS test;" (Some []) [] =
    (Raise (DriverError "server has gone away"),
     [Cursors.CvCursor None; Cursors.CvEnter 0;
      Cursors.CvExecute 0 "SELECT 1 AS test;" []; Cursors.CvFetchall 0;
      Cursors.CvExit 0 None]).
Proof.
  exact (run_query_exit_error_wins Scenario.stuck "SELECT 1 AS test;" (Some []) []
           None Cursors.run_query (or_introl eq_refl) 0 0 [[("test", PInt 1)]]
           (DriverError "server has gone away")
           eq_refl eq_refl eq_refl eq_refl eq_refl).
Defined.
